(** * pkg/serviceapi/handler_containers.go: the container lifecycle handlers

    A shallow embedding of the Docker-compatible container handlers
    (container, killContainer, waitContainer, stopContainer,
    pauseContainer, unpauseContainer, restartContainer) together with the
    pieces of the Go standard library they rely on (strconv.Atoi,
    strconv.ParseBool, url.Values.Get, errors.Wrapf).

    The handlers are written in a small state monad: the state carries the
    world of the container runtime, the log of runtime calls made so far
    and the http.ResponseWriter the handler writes to. *)

From Stdlib Require Import ZArith String Ascii List Bool Lia.
From stdpp Require Import base option gmap strings.

Local Open Scope string_scope.
Local Open Scope Z_scope.

(** ** Go values *)

(** [len(s)] of a Go string, in bytes. *)
Definition len (s : string) : Z := Z.of_nat (String.length s).

(** [uint(x)] for an [int] operand: conversion to the unsigned type of the
    same width keeps the bit pattern. *)
Definition intSize : Z := 64.
Definition uint (x : Z) : Z := x mod 2 ^ intSize.

(** The two sentinel errors of strconv. *)
Inductive errKind : Type := ErrSyntax | ErrRange.

(** Values of Go's [error] interface that the handlers build or receive;
    the nil error is [None] in [option error]. *)
Inductive error : Type :=
| errorString (s : string)                    (* errors.New, fmt.Errorf, runtime errors *)
| withMessage (cause : error) (msg : string)  (* errors.Wrapf on a non-nil cause *)
| NumError (Func Num : string) (Err : errKind). (* *strconv.NumError *)

Definition errKind_text (k : errKind) : string :=
  match k with
  | ErrSyntax => "invalid syntax"
  | ErrRange => "value out of range"
  end.

Section ErrorText.
(** strconv.Quote, used by NumError.Error; it is not modelled. *)
Variable Quote : string -> string.

(** The [Error()] method. *)
Fixpoint error_Error (e : error) : string :=
  match e with
  | errorString s => s
  | withMessage cause msg => msg +:+ ": " +:+ error_Error cause
  | NumError f n k =>
      "strconv." +:+ f +:+ ": parsing " +:+ Quote n +:+ ": " +:+ errKind_text k
  end.
End ErrorText.

Module errors.
Definition New (msg : string) : error := errorString msg.

(** errors.Wrapf(err, format, args...): "If err is nil, Wrapf returns
    nil."  [msg] is the formatted message. *)
Definition Wrapf (err : option error) (msg : string) : option error :=
  match err with
  | None => None
  | Some e => Some (withMessage e msg)
  end.
End errors.

(** ** strconv *)

Module strconv.
Definition byte (c : ascii) : Z := Z.of_N (N_of_ascii c).

Definition syntaxError (fn str : string) : error := NumError fn str ErrSyntax.
Definition rangeError (fn str : string) : error := NumError fn str ErrRange.

Definition isDigit (c : ascii) : bool := (48 <=? byte c) && (byte c <=? 57).

Definition maxUint64 : Z := 2 ^ 64 - 1.

(** The digit loop of ParseUint(s, 10, 0): [s0] is the whole operand, [s]
    what is left to read and [n] the value read so far. *)
Fixpoint parseUintLoop (s0 s : string) (n : Z) : Z * option error :=
  match s with
  | EmptyString => (n, None)
  | String c rest =>
      if isDigit c then
        let d := byte c - 48 in
        let cutoff := maxUint64 / 10 + 1 in
        let maxVal := 2 ^ intSize - 1 in
        if cutoff <=? n then (maxVal, Some (rangeError "ParseUint" s0))
        else
          let n1 := n * 10 + d in
          if maxVal <? n1 then (maxVal, Some (rangeError "ParseUint" s0))
          else parseUintLoop s0 rest n1
      else (0, Some (syntaxError "ParseUint" s0))
  end.

Definition ParseUint10 (s : string) : Z * option error :=
  match s with
  | EmptyString => (0, Some (syntaxError "ParseUint" s))
  | _ => parseUintLoop s s 0
  end.

(** ParseInt(s, 10, 0). *)
Definition ParseInt10 (s : string) : Z * option error :=
  match s with
  | EmptyString => (0, Some (syntaxError "ParseInt" s))
  | String c rest =>
      let s0 := s in
      let neg := bool_decide (c = "-"%char) in
      let s := if bool_decide (c = "+"%char) || neg then rest else s in
      match ParseUint10 s with
      | (_, Some (NumError _ _ ErrSyntax)) => (0, Some (syntaxError "ParseInt" s0))
      | (un, _) =>
          let cutoff := 2 ^ (intSize - 1) in
          if negb neg && (cutoff <=? un) then
            (cutoff - 1, Some (rangeError "ParseInt" s0))
          else if neg && (cutoff <? un) then
            (- cutoff, Some (rangeError "ParseInt" s0))
          else (if neg then - un else un, None)
      end
  end.

(** The loop of Atoi's fast path. *)
Fixpoint atoiLoop (s : string) (n : Z) : option Z :=
  match s with
  | EmptyString => Some n
  | String ch rest =>
      if isDigit ch then atoiLoop rest (n * 10 + (byte ch - 48)) else None
  end.

(** Atoi's slow path: ParseInt, with the error relabelled. *)
Definition atoiSlow (s : string) : Z * option error :=
  match ParseInt10 s with
  | (i64, Some (NumError _ num k)) => (i64, Some (NumError "Atoi" num k))
  | r => r
  end.

(** strconv.Atoi on a platform with 64-bit int. *)
Definition Atoi (s : string) : Z * option error :=
  match s with
  | String c rest =>
      if len s <? 19 then
        (* fast path for small integers that fit the int type *)
        let signed := bool_decide (c = "-"%char) || bool_decide (c = "+"%char) in
        let digits := if signed then rest else s in
        if signed && (len digits <? 1) then (0, Some (syntaxError "Atoi" s))
        else
          match atoiLoop digits 0 with
          | None => (0, Some (syntaxError "Atoi" s))
          | Some n => (if bool_decide (c = "-"%char) then - n else n, None)
          end
      else atoiSlow s
  | EmptyString => atoiSlow s
  end.

(** strconv.ParseBool. *)
Definition ParseBool (str : string) : bool * option error :=
  if bool_decide (str ∈ ["1"; "t"; "T"; "TRUE"; "true"; "True"]) then (true, None)
  else if bool_decide (str ∈ ["0"; "f"; "F"; "FALSE"; "false"; "False"]) then (false, None)
  else (false, Some (syntaxError "ParseBool" str)).
End strconv.

(** ** Decimal integers, as the spec reads the t parameter

    A decimal numeral is a non-empty string of digits; its value is
    positional.  An integer literal is a numeral with an optional sign.
    These definitions do not follow strconv: they are what [Atoi] is
    compared with. *)

Module Decimal.
Fixpoint allDigits (s : string) : bool :=
  match s with
  | EmptyString => true
  | String c rest => strconv.isDigit c && allDigits rest
  end.

Fixpoint value (s : string) : Z :=
  match s with
  | EmptyString => 0
  | String c rest => (strconv.byte c - 48) * 10 ^ len rest + value rest
  end.

Definition numeral (s : string) : option Z :=
  match s with
  | EmptyString => None
  | _ => if allDigits s then Some (value s) else None
  end.

Definition integer (s : string) : option Z :=
  match s with
  | String c rest =>
      if bool_decide (c = "-"%char) then
        match numeral rest with Some n => Some (- n) | None => None end
      else if bool_decide (c = "+"%char) then numeral rest
      else numeral s
  | EmptyString => None
  end.

(** The range of Go's int on a 64-bit platform. *)
Definition minInt : Z := - 2 ^ 63.
Definition maxInt : Z := 2 ^ 63 - 1.
Definition inRange (n : Z) : bool := (minInt <=? n) && (n <=? maxInt).
End Decimal.

(** The three outcomes of ParseUint(s, 10, 0). *)
Inductive ParseUint_outcome (s : string) : Prop :=
| uint_value (n : Z) :
    Decimal.numeral s = Some n -> n <= strconv.maxUint64 ->
    strconv.ParseUint10 s = (n, None) -> ParseUint_outcome s
| uint_range :
    strconv.ParseUint10 s
    = (strconv.maxUint64, Some (strconv.rangeError "ParseUint" s)) ->
    (forall n, Decimal.numeral s = Some n -> strconv.maxUint64 < n) ->
    ParseUint_outcome s
| uint_syntax :
    Decimal.numeral s = None ->
    strconv.ParseUint10 s = (0, Some (strconv.syntaxError "ParseUint" s)) ->
    ParseUint_outcome s.

(** ** net/http, net/url and gorilla/mux *)

Module http.
Definition StatusOK : Z := 200.
Definition StatusNoContent : Z := 204.
Definition StatusNotModified : Z := 304.
Definition StatusBadRequest : Z := 400.
Definition StatusNotFound : Z := 404.
Definition StatusConflict : Z := 409.
Definition StatusInternalServerError : Z := 500.
End http.

(** url.Values is map[string][]string; [Get] returns the first value of the
    key, or the empty string when there is none. *)
Definition Values_Get (v : gmap string (list string)) (key : string) : string :=
  match v !! key with
  | Some (x :: _) => x
  | _ => ""
  end.

(** The parts of *http.Request the handlers read: the method, the route
    variables of mux.Vars(r) and the parsed form r.Form. *)
Record Request : Type := {
  Method : string;
  Vars : gmap string string;
  Form : gmap string (list string)
}.

(** mux.Vars(r)[key]: a missing key reads as the zero value. *)
Definition mux_Vars (r : Request) (key : string) : string :=
  default "" (Vars r !! key).

(** The body of the wait response. *)
Module ContainerWait.
Record ErrorT : Type := { Message : string }.
(** Modelled from the spec: the struct ContainerWaitOKBody is declared
    elsewhere in package serviceapi; the wait envelope is
    {StatusCode: int, Error: {Message: string}}. *)
Record OKBody : Type := { StatusCode : Z; Error : ErrorT }.
End ContainerWait.

(** What a handler has written to the body of the response. *)
Inductive chunk : Type :=
| Text (s : string)
| ErrorEnvelope (message : string) (cause : option error)
| JSON (v : ContainerWait.OKBody).

(** http.ResponseWriter: the header map, the status code once WriteHeader
    has been called, and the body written so far. *)
Record ResponseWriter : Type := {
  Header : gmap string string;
  status : option Z;
  body : list chunk
}.

Definition newResponseWriter : ResponseWriter :=
  {| Header := ∅; status := None; body := [] |}.

Definition w_WriteHeader (code : Z) (w : ResponseWriter) : ResponseWriter :=
  match status w with
  | Some _ => w   (* superfluous WriteHeader call *)
  | None => {| Header := Header w; status := Some code; body := body w |}
  end.

Definition w_Write (c : chunk) (w : ResponseWriter) : ResponseWriter :=
  {| Header := Header w;
     status := Some (default http.StatusOK (status w));
     body := body w ++ [c] |}.

Definition w_Header_Set (k v : string) (w : ResponseWriter) : ResponseWriter :=
  match status w with
  | Some _ => w   (* the header has been sent *)
  | None => {| Header := <[k := v]> (Header w); status := None; body := body w |}
  end.

(** Modelled from the spec: the helper Error(w, apiMessage, code, err) is
    defined elsewhere in package serviceapi.  The response envelope is "a
    structured error value carrying a human-readable message, an HTTP
    status code, and an optional wrapped cause". *)
Definition w_Error (apiMessage : string) (code : Z) (err : option error)
    (w : ResponseWriter) : ResponseWriter :=
  w_Write (ErrorEnvelope apiMessage err) (w_WriteHeader code w).

(** json.Marshal of a ContainerWaitOKBody: an int and a string always
    encode, so the error is nil. *)
Definition json_Marshal (v : ContainerWait.OKBody) : chunk * option error :=
  (JSON v, None).

(** ** libpod *)

(** Modelled from the spec: define.ContainerStatus is declared in
    libpod/define; the lifecycle state has "the variants {Created, Running,
    Paused, Stopped, Exited, Unknown}". *)
Inductive ContainerStatus : Type :=
| ContainerStateUnknown
| ContainerStateCreated
| ContainerStateRunning
| ContainerStatePaused
| ContainerStateStopped
| ContainerStateExited.

#[global] Instance ContainerStatus_eq_dec : EqDecision ContainerStatus.
Proof. solve_decision. Defined.

(** syscall.SIGKILL *)
Definition SIGKILL : Z := 9.

(** ** The runtime collaborator and the handler monad *)

Declare Scope handler_scope.
Delimit Scope handler_scope with handler.

Section Handlers.
(** A container handle (a pointer to libpod.Container) and the state of the
    container engine behind libpod.Runtime. *)
Context {Container World : Type}.

(** The calls a handler makes on the runtime and on a container handle. *)
Inductive Call : Type :=
| CLookupContainer (name : string)
| CState (con : Container)
| CKill (con : Container) (sig : Z)
| CPause (con : Container)
| CUnpause (con : Container)
| CStop (con : Container)
| CStopWithTimeout (con : Container) (timeout : Z)
| CStopTimeout (con : Container)
| CRestartWithTimeout (con : Container) (timeout : Z)
| CWait (con : Container)
| CRemoveContainer (con : Container) (force vols : bool).

(** The interface consumed from libpod; every call may change the world.
    Wait returns its exit code together with the error. *)
Record Runtime : Type := {
  rt_LookupContainer : string -> World -> (Container + error) * World;
  rt_State : Container -> World -> (ContainerStatus + error) * World;
  rt_Kill : Container -> Z -> World -> option error * World;
  rt_Pause : Container -> World -> option error * World;
  rt_Unpause : Container -> World -> option error * World;
  rt_Stop : Container -> World -> option error * World;
  rt_StopWithTimeout : Container -> Z -> World -> option error * World;
  rt_StopTimeout : Container -> World -> Z * World;
  rt_RestartWithTimeout : Container -> Z -> World -> option error * World;
  rt_Wait : Container -> World -> (Z * option error) * World;
  rt_RemoveContainer : Container -> bool -> bool -> World -> option error * World
}.

Record St : Type := {
  world : World;
  calls : list Call;
  w : ResponseWriter
}.

Definition M (A : Type) : Type := St -> A * St.

Definition ret {A} (a : A) : M A := fun s => (a, s).

Definition bind {A B} (m : M A) (k : A -> M B) : M B :=
  fun s => let (a, s') := m s in k a s'.

Notation "'let*' x ':=' c1 'in' c2" := (bind c1 (fun x => c2))
  (at level 10, x name, c1 at level 100, c2 at level 200,
   only parsing) : handler_scope.
Notation "'let*' ' p ':=' c1 'in' c2" := (bind c1 (fun p => c2))
  (at level 10, p strict pattern, c1 at level 100, c2 at level 200,
   only parsing) : handler_scope.

(** A runtime call: logged, then run on the world. *)
Definition call {A} (c : Call) (op : World -> A * World) : M A :=
  fun s =>
    let (a, wld) := op (world s) in
    (a, {| world := wld; calls := calls s ++ [c]; w := w s |}).

(** An action on the response writer. *)
Definition write (f : ResponseWriter -> ResponseWriter) : M unit :=
  fun s => (tt, {| world := world s; calls := calls s; w := f (w s) |}).

Definition Error (apiMessage : string) (code : Z) (err : option error) : M unit :=
  write (w_Error apiMessage code err).
Definition WriteHeader (code : Z) : M unit := write (w_WriteHeader code).
Definition Header_Set (k v : string) : M unit := write (w_Header_Set k v).
Definition WriteString (c : chunk) : M unit := write (w_Write c).
(** fmt.Fprintln(w, s) *)
Definition Fprintln (s : string) : M unit :=
  write (w_Write (Text (s +:+ String (ascii_of_nat 10) ""))).

Variable runtime : Runtime.

Definition LookupContainer (name : string) : M (Container + error) :=
  call (CLookupContainer name) (rt_LookupContainer runtime name).
Definition State (con : Container) : M (ContainerStatus + error) :=
  call (CState con) (rt_State runtime con).
Definition Kill (con : Container) (sig : Z) : M (option error) :=
  call (CKill con sig) (rt_Kill runtime con sig).
Definition Pause (con : Container) : M (option error) :=
  call (CPause con) (rt_Pause runtime con).
Definition Unpause (con : Container) : M (option error) :=
  call (CUnpause con) (rt_Unpause runtime con).
Definition Stop (con : Container) : M (option error) :=
  call (CStop con) (rt_Stop runtime con).
Definition StopWithTimeout (con : Container) (timeout : Z) : M (option error) :=
  call (CStopWithTimeout con timeout) (rt_StopWithTimeout runtime con timeout).
Definition StopTimeout (con : Container) : M Z :=
  call (CStopTimeout con) (rt_StopTimeout runtime con).
Definition RestartWithTimeout (con : Container) (timeout : Z) : M (option error) :=
  call (CRestartWithTimeout con timeout) (rt_RestartWithTimeout runtime con timeout).
Definition Wait (con : Container) : M (Z * option error) :=
  call (CWait con) (rt_Wait runtime con).
Definition RemoveContainer (con : Container) (force vols : bool) : M (option error) :=
  call (CRemoveContainer con force vols) (rt_RemoveContainer runtime con force vols).

(** signal.ParseSignal of docker/pkg/signal, with its table of signal
    names; a syscall.Signal is an int. *)
Variable ParseSignal : string -> Z * option error.

(** fmt.Sprintf(format) without operands, for a format that is itself
    computed at run time (line 165). *)
Variable Sprintf0 : string -> string.

Local Open Scope handler_scope.

(** ** The handlers

    fmt.Sprintf and errors.Wrapf with a constant format whose only verb is
    %s are written as the concatenation they compute. *)

Definition stopped (state : ContainerStatus) : bool :=
  bool_decide (state = ContainerStateStopped) || bool_decide (state = ContainerStateExited).

(** /containers/(name)/json *)
Definition container (r : Request) : M unit :=
  let name := mux_Vars r "name" in
  let* res := LookupContainer name in
  match res with
  | inr err => Error "no such container" http.StatusNotFound (Some err)
  | inl con =>
      if bool_decide (Method r = "DELETE") then
        let '(force, err) :=
          if 0 <? len (Values_Get (Form r) "force")
          then strconv.ParseBool (Values_Get (Form r) "force") else (false, None) in
        match err with
        | Some _ =>
            Error "Something went wrong." http.StatusBadRequest
              (errors.Wrapf err ("Unable to parse parameter 'force': " +:+ Values_Get (Form r) "force"))
        | None =>
            let '(vols, err) :=
              if 0 <? len (Values_Get (Form r) "v")
              then strconv.ParseBool (Values_Get (Form r) "v") else (false, None) in
            match err with
            | Some _ =>
                Error "Something went wrong." http.StatusBadRequest
                  (errors.Wrapf err ("Unable to parse parameter 'v': " +:+ Values_Get (Form r) "v"))
            | None =>
                if 0 <? len (Values_Get (Form r) "link") then
                  Error "Something went wrong." http.StatusBadRequest
                    (Some (errors.New "DELETE /containers/{id}?link parameter is not supported."))
                else
                  let* err := RemoveContainer con force vols in
                  match err with
                  | Some _ => Error "Something went wrong." http.StatusInternalServerError err
                  | None => let* _ := WriteHeader http.StatusNoContent in Fprintln ""
                  end
            end
        end
      else
        Error "Something went wrong." http.StatusInternalServerError
          (Some (errors.New (Method r +:+ " is not implemented for containers")))
  end.

(** /containers/(name)/kill *)
Definition killContainer (r : Request) : M unit :=
  let name := mux_Vars r "name" in
  let* res := LookupContainer name in
  match res with
  | inr err => Error ("No such container: " +:+ name) http.StatusNotFound (Some err)
  | inl con =>
      let* res := State con in
      match res with
      | inr err => Error "Something went wrong." http.StatusInternalServerError (Some err)
      | inl state =>
          (* If the container is stopped already, send a 409 *)
          if stopped state then
            Error ("Container " +:+ name +:+ " is not running") http.StatusConflict
              (Some (errors.New ("Cannot kill container " +:+ name +:+ ", it is not running")))
          else
            let '(sig, err) :=
              if 0 <? len (Values_Get (Form r) "signal")
              then ParseSignal (Values_Get (Form r) "signal") else (SIGKILL, None) in
            match err with
            | Some _ =>
                Error "Something went wrong." http.StatusBadRequest
                  (errors.Wrapf err ("unable to parse signal " +:+ Values_Get (Form r) "signal"))
            | None =>
                let* err := Kill con (uint sig) in
                match err with
                | Some _ =>
                    Error "Something went wrong." http.StatusInternalServerError
                      (errors.Wrapf err ("unable to kill container " +:+ name))
                | None => let* _ := WriteHeader http.StatusNoContent in Fprintln ""
                end
            end
      end
  end.

(** /containers/(name)/wait *)
Definition waitContainer (Quote : string -> string) (r : Request) : M unit :=
  let name := mux_Vars r "name" in
  let* res := LookupContainer name in
  match res with
  | inr err => Error ("No such container: " +:+ name) http.StatusNotFound (Some err)
  | inl con =>
      let* '(exitCode, err) := Wait con in
      let msg := match err with
                 | Some e => error_Error Quote e
                 | None => ""
                 end in
      let '(buffer, err) :=
        json_Marshal {| ContainerWait.StatusCode := exitCode;
                        ContainerWait.Error := {| ContainerWait.Message := msg |} |} in
      match err with
      | Some _ => Error "Something went wrong." http.StatusInternalServerError err
      | None =>
          let* _ := Header_Set "Content-Type" "application/json" in
          let* _ := WriteHeader http.StatusOK in
          WriteString buffer
      end
  end.

(** /containers/(name)/stop

    [err] is declared by the lookup and assigned again by State(); once
    State() has succeeded it is nil, and the [err] of the Atoi block is a
    new variable of that block.  So the causes built from [err] at lines
    171 and 186 wrap the nil error. *)
Definition stopContainer (r : Request) : M unit :=
  let name := mux_Vars r "name" in
  let* res := LookupContainer name in
  match res with
  | inr err => Error ("No such container: " +:+ name) http.StatusNotFound (Some err)
  | inl con =>
      let* res := State con in
      match res with
      | inr err =>
          Error "Something went wrong." http.StatusInternalServerError
            (errors.Wrapf (Some err)
               (Sprintf0 ("unable to get state for " +:+ name +:+ " : %!s(MISSING)")))
      | inl state =>
          let err : option error := None in
          (* If the container is stopped already, send a 302 *)
          if stopped state then
            Error "Something went wrong." http.StatusNotModified
              (errors.Wrapf err (Sprintf0 ("container " +:+ name +:+ " is already stopped ")))
          else
            let finish (stopError : option error) : M unit :=
              match stopError with
              | Some _ =>
                  Error "Something went wrong." http.StatusInternalServerError
                    (errors.Wrapf err (Sprintf0 ("failed to stop " +:+ name)))
              | None => let* _ := WriteHeader http.StatusNoContent in Fprintln ""
              end in
            if 0 <? len (Values_Get (Form r) "t") then
              let '(timeout, err) := strconv.Atoi (Values_Get (Form r) "t") in
              match err with
              | Some _ =>
                  Error "Something went wrong." http.StatusBadRequest
                    (errors.Wrapf err ("Unable to parse parameter 't': " +:+ Values_Get (Form r) "t"))
              | None =>
                  let* stopError := StopWithTimeout con (uint timeout) in
                  finish stopError
              end
            else
              let* stopError := Stop con in
              finish stopError
      end
  end.

(** /containers/(name)/pause *)
Definition pauseContainer (r : Request) : M unit :=
  let name := mux_Vars r "name" in
  let* res := LookupContainer name in
  match res with
  | inr err => Error ("No such container: " +:+ name) http.StatusNotFound (Some err)
  | inl con =>
      (* the api does not error if the container is already paused *)
      let* err := Pause con in
      match err with
      | Some _ => Error "Something went wrong." http.StatusInternalServerError err
      | None => let* _ := WriteHeader http.StatusNoContent in Fprintln ""
      end
  end.

(** /containers/(name)/unpause *)
Definition unpauseContainer (r : Request) : M unit :=
  let name := mux_Vars r "name" in
  let* res := LookupContainer name in
  match res with
  | inr err => Error ("No such container: " +:+ name) http.StatusNotFound (Some err)
  | inl con =>
      let* err := Unpause con in
      match err with
      | Some _ => Error "Something went wrong." http.StatusInternalServerError err
      | None => let* _ := WriteHeader http.StatusNoContent in Fprintln ""
      end
  end.

(** /containers/(name)/restart *)
Definition restartContainer (r : Request) : M unit :=
  let name := mux_Vars r "name" in
  let* res := LookupContainer name in
  match res with
  | inr err => Error ("No such container: " +:+ name) http.StatusNotFound (Some err)
  | inl con =>
      let* res := State con in
      match res with
      | inr err => Error "Something went wrong." http.StatusInternalServerError (Some err)
      | inl state =>
          (* If the container is stopped already, send a 409 *)
          if stopped state then
            let msg := "Container " +:+ name +:+ " is not running" in
            Error msg http.StatusConflict (Some (errors.New msg))
          else
            let restart (timeout : Z) : M unit :=
              let* err := RestartWithTimeout con timeout in
              match err with
              | Some _ => Error "Something went wrong." http.StatusInternalServerError err
              | None => let* _ := WriteHeader http.StatusNoContent in Fprintln ""
              end in
            let* timeout := StopTimeout con in
            if 0 <? len (Values_Get (Form r) "t") then
              let '(t, err) := strconv.Atoi (Values_Get (Form r) "t") in
              match err with
              | Some _ =>
                  Error "Something went wrong." http.StatusBadRequest
                    (errors.Wrapf err ("Unable to parse parameter 't': " +:+ Values_Get (Form r) "t"))
              | None => restart (uint t)
              end
            else restart timeout
      end
  end.

(** The handlers behind the POST routes. *)
Definition operations (Quote : string -> string) : list (Request -> M unit) :=
  [ killContainer;
    waitContainer Quote;
    stopContainer;
    pauseContainer;
    unpauseContainer;
    restartContainer ].

(** A handler served on a fresh response writer: the state in which it
    leaves the world, the log of runtime calls and the response. *)
Definition serve (handler : Request -> M unit) (r : Request) (wld : World) : St :=
  snd (handler r {| world := wld; calls := []; w := newResponseWriter |}).
End Handlers.

Arguments Call : clear implicits.
Arguments Runtime : clear implicits.
Arguments St : clear implicits.

(** ** A small container engine to run the handlers on

    Containers are known by name; the world maps each name to its state. *)

Module Fake.
Definition noSuchContainer (name : string) : error :=
  errorString ("no container with name or ID " +:+ name +:+ " found").

Definition set (con : string) (st : ContainerStatus)
    (wld : gmap string ContainerStatus) : option error * gmap string ContainerStatus :=
  match wld !! con with
  | Some _ => (None, <[con := st]> wld)
  | None => (Some (noSuchContainer con), wld)
  end.

(** [waited] is what Wait reports for every container. *)
Definition runtime (waited : Z * option error)
  : Runtime string (gmap string ContainerStatus) :=
  {| rt_LookupContainer name wld :=
       (match wld !! name with
        | Some _ => inl name
        | None => inr (noSuchContainer name)
        end, wld);
     rt_State con wld :=
       (match wld !! con with
        | Some st => inl st
        | None => inr (noSuchContainer con)
        end, wld);
     rt_Kill con sig wld := set con ContainerStateExited wld;
     rt_Pause con wld := set con ContainerStatePaused wld;
     rt_Unpause con wld := set con ContainerStateRunning wld;
     rt_Stop con wld := set con ContainerStateStopped wld;
     rt_StopWithTimeout con timeout wld := set con ContainerStateStopped wld;
     rt_StopTimeout con wld := (10, wld);
     rt_RestartWithTimeout con timeout wld := set con ContainerStateRunning wld;
     rt_Wait con wld := (waited, wld);
     rt_RemoveContainer con force vols wld :=
       match wld !! con with
       | Some _ => (None, delete con wld)
       | None => (Some (noSuchContainer con), wld)
       end |}.

(** Two signal names are enough here. *)
Definition ParseSignal (rawSignal : string) : Z * option error :=
  if bool_decide (rawSignal ∈ ["9"; "KILL"; "SIGKILL"]) then (9, None)
  else if bool_decide (rawSignal ∈ ["15"; "TERM"; "SIGTERM"]) then (15, None)
  else (-1, Some (errorString ("Invalid signal: " +:+ rawSignal))).

Definition Sprintf0 (format : string) : string := format.
Definition Quote (s : string) : string := s.

(** c1 is running, c2 has exited; nothing else exists. *)
Definition world0 : gmap string ContainerStatus :=
  {[ "c1" := ContainerStateRunning; "c2" := ContainerStateExited ]}.

Definition request (method name : string) (form : list (string * list string)) : Request :=
  {| Method := method; Vars := {[ "name" := name ]}; Form := list_to_map form |}.

(** The engine on which every Wait reports a clean exit. *)
Definition rt0 : Runtime string (gmap string ContainerStatus) := runtime (0, None).

(** The engine on which every Wait reports exit code 137 and an error. *)
Definition rt137 : Runtime string (gmap string ContainerStatus) :=
  runtime (137, Some (errorString "container was killed")).
(** An engine in trouble: every reference resolves, State answers Running
    or fails, and every operation fails. *)
Definition engineDown : error := errorString "container engine is down".

Definition flaky (stateOK : bool) : Runtime string unit :=
  {| rt_LookupContainer name wld := (inl name, wld);
     rt_State con wld :=
       (if stateOK then inl ContainerStateRunning else inr engineDown, wld);
     rt_Kill con sig wld := (Some engineDown, wld);
     rt_Pause con wld := (Some engineDown, wld);
     rt_Unpause con wld := (Some engineDown, wld);
     rt_Stop con wld := (Some engineDown, wld);
     rt_StopWithTimeout con timeout wld := (Some engineDown, wld);
     rt_StopTimeout con wld := (10, wld);
     rt_RestartWithTimeout con timeout wld := (Some engineDown, wld);
     rt_Wait con wld := ((-1, Some engineDown), wld);
     rt_RemoveContainer con force vols wld := (Some engineDown, wld) |}.
End Fake.

(** ** Responses *)

(** The response written by [Error] on a fresh writer. *)
Definition errorResponse (apiMessage : string) (code : Z) (err : option error)
  : ResponseWriter :=
  {| Header := ∅; status := Some code; body := [ErrorEnvelope apiMessage err] |}.

(** The response of a successful mutating operation. *)
Definition noContent : ResponseWriter :=
  {| Header := ∅; status := Some http.StatusNoContent;
     body := [Text (String (ascii_of_nat 10) "")] |}.

(** ** The collection resource and the classification of runtime calls *)

Section Collection.
Context {Container World : Type}.

(** http.NotFound(w, r) is http.Error(w, "404 page not found",
    StatusNotFound): two headers, the status line and the message. *)
Definition http_NotFound : @M Container World unit :=
  bind (Header_Set "Content-Type" "text/plain; charset=utf-8") (fun _ =>
  bind (Header_Set "X-Content-Type-Options" "nosniff") (fun _ =>
  bind (WriteHeader http.StatusNotFound) (fun _ =>
  Fprintln "404 page not found"))).

(** /containers/ *)
Definition containers (r : Request) : @M Container World unit := http_NotFound.

(** The calls that carry out a request, as opposed to the queries
    LookupContainer, State and StopTimeout. *)
Definition operation (c : Call Container) : bool :=
  match c with
  | CLookupContainer _ | CState _ | CStopTimeout _ => false
  | CKill _ _ | CPause _ | CUnpause _ | CStop _ | CStopWithTimeout _ _
  | CRestartWithTimeout _ _ | CWait _ | CRemoveContainer _ _ _ => true
  end.

Definition isState (c : Call Container) : bool :=
  match c with
  | CState _ => true
  | _ => false
  end.

(** The number of calls of a log that satisfy [p]. *)
Definition count (p : Call Container -> bool) (log : list (Call Container)) : nat :=
  length (List.filter p log).
End Collection.

(** The statuses with which a handler turns a request down. *)
Definition refusal (code : option Z) : Prop :=
  code = Some http.StatusNotModified \/ code = Some http.StatusBadRequest
  \/ code = Some http.StatusNotFound \/ code = Some http.StatusConflict.

(** The statuses of a request that was carried out. *)
Definition success (code : option Z) : Prop :=
  code = Some http.StatusOK \/ code = Some http.StatusNoContent.

(** The literals ParseBool accepts. *)
Definition boolLiterals : list string :=
  ["1"; "t"; "T"; "TRUE"; "true"; "True"; "0"; "f"; "F"; "FALSE"; "false"; "False"].

(** A flag of the remove request: absent or empty it is false, otherwise it
    is what ParseBool reads. *)
Definition flag (value : string) (b : bool) : Prop :=
  (value = "" /\ b = false) \/ (value <> "" /\ strconv.ParseBool value = (b, None)).

Create HintDb handlers.
#[global] Hint Unfold serve container killContainer waitContainer stopContainer
  pauseContainer unpauseContainer restartContainer
  LookupContainer State Kill Pause Unpause Stop StopWithTimeout StopTimeout
  RestartWithTimeout Wait RemoveContainer
  Error WriteHeader Header_Set WriteString Fprintln
  bind ret call write : handlers.

#[global] Hint Unfold containers http_NotFound : handlers.

(** Unfold a handler down to the runtime calls it makes. *)
Ltac unfold_handler := autounfold with handlers; cbn [world calls w fst snd].

(** Replace a runtime call by the answer a hypothesis gives for it. *)
Ltac answer H := rewrite H; cbn [world calls w fst snd].

(** * Properties *)

(** ** The handlers on concrete requests *)

Example Atoi_10 : strconv.Atoi "10" = (10, None).
Proof. reflexivity. Qed.

Example Atoi_minus_1 : strconv.Atoi "-1" = (-1, None).
Proof. reflexivity. Qed.

Example Atoi_abc : strconv.Atoi "abc" = (0, Some (NumError "Atoi" "abc" ErrSyntax)).
Proof. reflexivity. Qed.

Example Atoi_max : strconv.Atoi "9223372036854775807" = (9223372036854775807, None).
Proof. vm_compute. reflexivity. Qed.

Example Atoi_over :
  strconv.Atoi "9223372036854775808"
  = (9223372036854775807, Some (NumError "Atoi" "9223372036854775808" ErrRange)).
Proof. vm_compute. reflexivity. Qed.

Example stop_c1 :
  serve (stopContainer Fake.rt0 Fake.Sprintf0)
        (Fake.request "POST" "c1" []) Fake.world0
  = {| world := <["c1" := ContainerStateStopped]> Fake.world0;
       calls := [CLookupContainer "c1"; CState "c1"; CStop "c1"];
       w := {| Header := ∅; status := Some 204;
               body := [Text (String (ascii_of_nat 10) "")] |} |}.
Proof. vm_compute. reflexivity. Qed.

Example remove_c1 :
  serve (container Fake.rt0)
        (Fake.request "DELETE" "c1" [("force", ["true"]); ("v", ["true"])]) Fake.world0
  = {| world := delete "c1" Fake.world0;
       calls := [CLookupContainer "c1"; CRemoveContainer "c1" true true];
       w := noContent |}.
Proof. vm_compute. reflexivity. Qed.

Example remove_force_notabool :
  serve (container Fake.rt0)
        (Fake.request "DELETE" "c1" [("force", ["notabool"])]) Fake.world0
  = {| world := Fake.world0;
       calls := [CLookupContainer "c1"];
       w := errorResponse "Something went wrong." http.StatusBadRequest
              (Some (withMessage (NumError "ParseBool" "notabool" ErrSyntax)
                       "Unable to parse parameter 'force': notabool")) |}.
Proof. vm_compute. reflexivity. Qed.

Example kill_c1_bogus_signal :
  serve (killContainer Fake.rt0 Fake.ParseSignal)
        (Fake.request "POST" "c1" [("signal", ["BOGUS"])]) Fake.world0
  = {| world := Fake.world0;
       calls := [CLookupContainer "c1"; CState "c1"];
       w := errorResponse "Something went wrong." http.StatusBadRequest
              (Some (withMessage (errorString "Invalid signal: BOGUS")
                       "unable to parse signal BOGUS")) |}.
Proof. vm_compute. reflexivity. Qed.

Example pause_c1 :
  serve (pauseContainer Fake.rt0) (Fake.request "POST" "c1" []) Fake.world0
  = {| world := <["c1" := ContainerStatePaused]> Fake.world0;
       calls := [CLookupContainer "c1"; CPause "c1"];
       w := noContent |}.
Proof. vm_compute. reflexivity. Qed.

(** ** strconv.Atoi reads decimal integers *)

Lemma len_String (c : ascii) (s : string) : len (String c s) = len s + 1.
Proof. unfold len. cbn [String.length]. lia. Qed.

Lemma len_nonneg (s : string) : 0 <= len s.
Proof. unfold len. lia. Qed.

Lemma isDigit_range (c : ascii) :
  strconv.isDigit c = true -> 0 <= strconv.byte c - 48 <= 9.
Proof. unfold strconv.isDigit. intros H. apply andb_true_iff in H. lia. Qed.

Lemma value_bounds (s : string) :
  Decimal.allDigits s = true -> 0 <= Decimal.value s < 10 ^ len s.
Proof.
  induction s as [|c s IH]; cbn [Decimal.allDigits Decimal.value].
  - intros _. change (len "") with 0. lia.
  - intros H. apply andb_true_iff in H as [Hc Hs].
    specialize (IH Hs). apply isDigit_range in Hc.
    rewrite len_String, Z.pow_add_r by (pose proof (len_nonneg s); lia).
    nia.
Qed.

Lemma atoiLoop_spec (s : string) (n : Z) :
  strconv.atoiLoop s n
  = if Decimal.allDigits s then Some (n * 10 ^ len s + Decimal.value s) else None.
Proof.
  revert n. induction s as [|c s IH]; intros n;
    cbn [strconv.atoiLoop Decimal.allDigits Decimal.value].
  - change (len "") with 0. f_equal. lia.
  - destruct (strconv.isDigit c); cbn [andb]; [| reflexivity].
    rewrite IH. destruct (Decimal.allDigits s); [| reflexivity].
    f_equal. rewrite len_String, Z.pow_add_r by (pose proof (len_nonneg s); lia).
    lia.
Qed.

Lemma cutoff_value : strconv.maxUint64 / 10 + 1 = 1844674407370955162.
Proof. reflexivity. Qed.

Lemma maxVal_value : 2 ^ intSize - 1 = strconv.maxUint64.
Proof. reflexivity. Qed.

Lemma maxUint64_value : strconv.maxUint64 = 18446744073709551615.
Proof. reflexivity. Qed.

Lemma parseUintLoop_digits (s0 s : string) (n : Z) :
  0 <= n <= strconv.maxUint64 -> Decimal.allDigits s = true ->
  strconv.parseUintLoop s0 s n
  = if n * 10 ^ len s + Decimal.value s <=? strconv.maxUint64
    then (n * 10 ^ len s + Decimal.value s, None)
    else (strconv.maxUint64, Some (strconv.rangeError "ParseUint" s0)).
Proof.
  revert n. induction s as [|c s IH]; intros n Hn Hs;
    cbn [strconv.parseUintLoop Decimal.allDigits Decimal.value] in *.
  - change (len "") with 0. rewrite Z.pow_0_r, Z.mul_1_r, Z.add_0_r.
    destruct (Z.leb_spec n strconv.maxUint64); [reflexivity | lia].
  - apply andb_true_iff in Hs as [Hc Hs]. rewrite Hc.
    pose proof (isDigit_range _ Hc) as Hd.
    pose proof (value_bounds _ Hs) as Hv.
    pose proof (len_nonneg s) as Hl.
    assert (Hp : 0 < 10 ^ len s) by (apply Z.pow_pos_nonneg; lia).
    rewrite len_String, Z.pow_add_r by lia.
    rewrite cutoff_value, maxVal_value.
    set (d := strconv.byte c - 48) in *.
    replace (n * (10 ^ len s * 10 ^ 1) + (d * 10 ^ len s + Decimal.value s))
      with ((n * 10 + d) * 10 ^ len s + Decimal.value s) by lia.
    destruct (Z.leb_spec 1844674407370955162 n) as [Hcut|Hcut].
    + rewrite maxUint64_value.
      destruct (Z.leb_spec ((n * 10 + d) * 10 ^ len s + Decimal.value s) 18446744073709551615); [nia | reflexivity].
    + destruct (Z.ltb_spec strconv.maxUint64 (n * 10 + d)) as [Hov|Hov].
      * rewrite maxUint64_value in *.
        destruct (Z.leb_spec ((n * 10 + d) * 10 ^ len s + Decimal.value s) 18446744073709551615); [nia | reflexivity].
      * apply IH; [lia | exact Hs].
Qed.

Lemma parseUintLoop_nondigits (s0 s : string) (n : Z) :
  Decimal.allDigits s = false ->
  strconv.parseUintLoop s0 s n = (0, Some (strconv.syntaxError "ParseUint" s0))
  \/ strconv.parseUintLoop s0 s n
     = (strconv.maxUint64, Some (strconv.rangeError "ParseUint" s0)).
Proof.
  revert n. induction s as [|c s IH]; intros n Hs;
    cbn [strconv.parseUintLoop Decimal.allDigits] in *; [discriminate |].
  destruct (strconv.isDigit c); cbn [andb] in Hs; [| left; reflexivity].
  destruct (_ <=? n); [right; reflexivity |].
  destruct (_ <? _); [right; reflexivity |].
  apply IH, Hs.
Qed.

Lemma ParseUint10_outcome (s : string) : ParseUint_outcome s.
Proof.
  destruct s as [|c s]; [apply uint_syntax; reflexivity |].
  assert (Hnum : Decimal.numeral (String c s)
                 = if Decimal.allDigits (String c s)
                   then Some (Decimal.value (String c s)) else None) by reflexivity.
  assert (Hparse : strconv.ParseUint10 (String c s)
                   = strconv.parseUintLoop (String c s) (String c s) 0) by reflexivity.
  destruct (Decimal.allDigits (String c s)) eqn:Hd.
  - pose proof (value_bounds _ Hd) as Hv.
    rewrite (parseUintLoop_digits _ _ 0) in Hparse
      by (rewrite ?maxUint64_value; first [lia | exact Hd]).
    rewrite Z.mul_0_l, Z.add_0_l in Hparse.
    destruct (Z.leb_spec (Decimal.value (String c s)) strconv.maxUint64) as [Hle|Hgt].
    + eapply uint_value; [exact Hnum | exact Hle | exact Hparse].
    + apply uint_range; [exact Hparse |]. rewrite Hnum. intros n [= <-]. exact Hgt.
  - destruct (parseUintLoop_nondigits (String c s) (String c s) 0 Hd) as [H|H].
    + apply uint_syntax; [exact Hnum | rewrite Hparse; exact H].
    + apply uint_range; [rewrite Hparse; exact H | rewrite Hnum; discriminate].
Qed.

Lemma inRange_spec (n : Z) :
  Decimal.inRange n = true <-> - 2 ^ 63 <= n <= 2 ^ 63 - 1.
Proof.
  unfold Decimal.inRange, Decimal.minInt, Decimal.maxInt.
  rewrite andb_true_iff. lia.
Qed.

Lemma numeral_nonneg (s : string) (n : Z) : Decimal.numeral s = Some n -> 0 <= n.
Proof.
  destruct s as [|c s]; [discriminate |]. unfold Decimal.numeral.
  destruct (Decimal.allDigits (String c s)) eqn:Hd; [| discriminate].
  intros [= <-]. exact (proj1 (value_bounds _ Hd)).
Qed.

Lemma inRange_cases (n : Z) :
  (Decimal.inRange n = true /\ - 2 ^ 63 <= n <= 2 ^ 63 - 1)
  \/ (Decimal.inRange n = false /\ (n < - 2 ^ 63 \/ 2 ^ 63 - 1 < n)).
Proof.
  destruct (Decimal.inRange n) eqn:H; [left | right]; split; try reflexivity.
  - apply inRange_spec, H.
  - destruct (Z.lt_ge_cases n (- 2 ^ 63)); [now left |].
    destruct (Z.lt_ge_cases (2 ^ 63 - 1) n); [now right |].
    assert (Decimal.inRange n = true) by (apply inRange_spec; lia). congruence.
Qed.

(** ParseInt(s, 10, 0) returns the integer that [s] denotes when it is in
    the range of int, and an error in every other case. *)
Lemma ParseInt10_spec (s : string) :
  match Decimal.integer s with
  | Some n =>
      if Decimal.inRange n then strconv.ParseInt10 s = (n, None)
      else exists v, strconv.ParseInt10 s = (v, Some (strconv.rangeError "ParseInt" s))
  | None => exists v k, strconv.ParseInt10 s = (v, Some (NumError "ParseInt" s k))
  end.
Proof.
  destruct s as [|c s]; [eexists _, _; reflexivity |].
  unfold Decimal.integer, strconv.ParseInt10.
  change (2 ^ (intSize - 1)) with (2 ^ 63).
  destruct (bool_decide (c = "-"%char)) eqn:Hneg.
  - rewrite orb_true_r. cbn [negb andb].
    destruct (ParseUint10_outcome s) as [n Hn Hle Hp | Hp Hn | Hn Hp]; rewrite Hp.
    + rewrite Hn. cbv beta iota. apply numeral_nonneg in Hn.
      destruct (inRange_cases (- n)) as [[-> Hr] | [-> Hr]];
        destruct (Z.ltb_spec (2 ^ 63) n); first [lia | reflexivity | eexists; reflexivity].
    + cbv beta iota. change (2 ^ 63 <? strconv.maxUint64) with true. cbv iota.
      destruct (Decimal.numeral s) as [n|]; [| eexists _, _; reflexivity].
      specialize (Hn n eq_refl). rewrite maxUint64_value in Hn.
      destruct (inRange_cases (- n)) as [[-> Hr] | [-> Hr]]; [lia | eexists; reflexivity].
    + rewrite Hn. eexists _, _; reflexivity.
  - rewrite orb_false_r. cbn [negb andb].
    assert (Hout : ParseUint_outcome
                     (if bool_decide (c = "+"%char) then s else String c s))
      by apply ParseUint10_outcome.
    destruct (bool_decide (c = "+"%char));
      destruct Hout as [n Hn Hle Hp | Hp Hn | Hn Hp]; rewrite Hp.
    all: try (rewrite Hn; eexists _, _; reflexivity).
    all: try (rewrite Hn; cbv beta iota; apply numeral_nonneg in Hn;
              destruct (inRange_cases n) as [[-> Hr] | [-> Hr]];
              destruct (Z.leb_spec (2 ^ 63) n);
              first [lia | reflexivity | eexists; reflexivity]).
    all: cbv beta iota; change (2 ^ 63 <=? strconv.maxUint64) with true; cbv iota;
      match goal with |- context [Decimal.numeral ?x] =>
        destruct (Decimal.numeral x) as [n|] eqn:E; [| eexists _, _; reflexivity] end;
      specialize (Hn n eq_refl); rewrite maxUint64_value in Hn;
      destruct (inRange_cases n) as [[-> Hr] | [-> Hr]]; [lia | eexists; reflexivity].
Qed.

Lemma atoiSlow_spec (s : string) :
  match Decimal.integer s with
  | Some n =>
      if Decimal.inRange n then strconv.atoiSlow s = (n, None)
      else exists v, strconv.atoiSlow s = (v, Some (strconv.rangeError "Atoi" s))
  | None => exists v k, strconv.atoiSlow s = (v, Some (NumError "Atoi" s k))
  end.
Proof.
  pose proof (ParseInt10_spec s) as H. unfold strconv.atoiSlow.
  destruct (Decimal.integer s) as [n|].
  - destruct (Decimal.inRange n).
    + rewrite H. reflexivity.
    + destruct H as [v ->]. eexists; reflexivity.
  - destruct H as (v & k & ->). eexists _, _; reflexivity.
Qed.

(** A numeral of at most 18 digits is in the range of int. *)
Lemma short_numeral_inRange (s : string) (n : Z) :
  Decimal.numeral s = Some n -> len s < 19 ->
  Decimal.inRange n = true /\ Decimal.inRange (- n) = true.
Proof.
  destruct s as [|c s]; [discriminate |]. unfold Decimal.numeral.
  destruct (Decimal.allDigits (String c s)) eqn:Hd; [| discriminate].
  intros [= <-] Hlen. pose proof (value_bounds _ Hd) as Hv.
  assert (Hpow : 10 ^ len (String c s) <= 10 ^ 18)
    by (apply Z.pow_le_mono_r; lia).
  change (10 ^ 18) with 1000000000000000000 in Hpow.
  change ((strconv.byte c - 48) * 10 ^ len s + Decimal.value s)
    with (Decimal.value (String c s)).
  split; apply inRange_spec; change (2 ^ 63) with 9223372036854775808; lia.
Qed.

Lemma atoiLoop_numeral (s : string) :
  s <> "" ->
  strconv.atoiLoop s 0 = Decimal.numeral s.
Proof.
  intros Hs. rewrite atoiLoop_spec. destruct s as [|c s]; [congruence |].
  unfold Decimal.numeral. destruct (Decimal.allDigits (String c s)); reflexivity.
Qed.

(** Atoi returns the integer that [s] denotes when it is in the range of
    int, and an error in every other case. *)
Theorem Atoi_spec (s : string) :
  match Decimal.integer s with
  | Some n =>
      if Decimal.inRange n then strconv.Atoi s = (n, None)
      else exists v, strconv.Atoi s = (v, Some (strconv.rangeError "Atoi" s))
  | None => exists v k, strconv.Atoi s = (v, Some (NumError "Atoi" s k))
  end.
Proof.
  destruct s as [|c s]; [apply (atoiSlow_spec "") |].
  unfold strconv.Atoi.
  destruct (Z.ltb_spec (len (String c s)) 19) as [Hshort|Hlong];
    [| apply atoiSlow_spec].
  unfold Decimal.integer. rewrite len_String in Hshort.
  destruct (bool_decide (c = "-"%char)) eqn:Hneg; cbn [orb andb].
  - destruct s as [|c' s]; [eexists _, _; reflexivity |].
    change (len (String c' s) <? 1) with (Z.of_nat (S (String.length s)) <? 1).
    destruct (Z.ltb_spec (Z.of_nat (S (String.length s))) 1); [lia |].
    rewrite atoiLoop_numeral by discriminate.
    destruct (Decimal.numeral (String c' s)) as [n|] eqn:Hn;
      [| eexists _, _; reflexivity].
    apply short_numeral_inRange in Hn as [_ ->]; [reflexivity | lia].
  - destruct (bool_decide (c = "+"%char)) eqn:Hpos; cbn [orb andb].
    + destruct s as [|c' s]; [eexists _, _; reflexivity |].
      change (len (String c' s) <? 1) with (Z.of_nat (S (String.length s)) <? 1).
      destruct (Z.ltb_spec (Z.of_nat (S (String.length s))) 1); [lia |].
      rewrite atoiLoop_numeral by discriminate.
      destruct (Decimal.numeral (String c' s)) as [n|] eqn:Hn;
        [| eexists _, _; reflexivity].
      apply short_numeral_inRange in Hn as [-> _]; [reflexivity | lia].
    + rewrite atoiLoop_numeral by discriminate.
      destruct (Decimal.numeral (String c s)) as [n|] eqn:Hn;
        [| eexists _, _; reflexivity].
      apply short_numeral_inRange in Hn as [-> _];
        [reflexivity | rewrite len_String; lia].
Qed.

(** Consequences used by the handlers. *)

Lemma stopped_false (state : ContainerStatus) :
  state <> ContainerStateStopped -> state <> ContainerStateExited ->
  stopped state = false.
Proof. destruct state; intros; (reflexivity || congruence). Qed.

Lemma stopped_true (state : ContainerStatus) :
  state = ContainerStateStopped \/ state = ContainerStateExited ->
  stopped state = true.
Proof. intros [-> | ->]; reflexivity. Qed.

Lemma Values_Get_absent (v : gmap string (list string)) (key : string) :
  v !! key = None -> Values_Get v key = "".
Proof. unfold Values_Get. intros ->. reflexivity. Qed.

Lemma len_nonempty (s : string) : s <> "" -> (0 <? len s) = true.
Proof.
  destruct s as [|c s]; [congruence | intros _].
  unfold len. apply Z.ltb_lt. cbn [String.length]. lia.
Qed.

Lemma len_empty : (0 <? len "") = false.
Proof. reflexivity. Qed.

(** Atoi accepts exactly the integer literals within the range of int. *)
Lemma Atoi_accepts (s : string) (n : Z) :
  Decimal.integer s = Some n -> Decimal.inRange n = true ->
  strconv.Atoi s = (n, None).
Proof.
  intros Hs Hn. pose proof (Atoi_spec s) as H. rewrite Hs, Hn in H. exact H.
Qed.

Lemma Atoi_rejects (s : string) :
  (forall n, Decimal.integer s = Some n -> Decimal.inRange n = false) ->
  exists v k, strconv.Atoi s = (v, Some (NumError "Atoi" s k)).
Proof.
  intros Hs. pose proof (Atoi_spec s) as H.
  destruct (Decimal.integer s) as [n|]; [| exact H].
  rewrite (Hs n eq_refl) in H. destruct H as [v H]. eexists _, _; exact H.
Qed.

Lemma uint_small (n : Z) : 0 <= n <= Decimal.maxInt -> uint n = n.
Proof.
  unfold uint, Decimal.maxInt. intros H. apply Z.mod_small.
  change (2 ^ intSize) with 18446744073709551616.
  change (2 ^ 63) with 9223372036854775808 in H. lia.
Qed.

(** ** What the handlers do *)

Section Claims.
Context {Container World : Type}.
Variable runtime : Runtime Container World.
Variable ParseSignal : string -> Z * option error.
Variable Sprintf0 : string -> string.
Variable Quote : string -> string.

(** C1: when the runtime fails to resolve the reference, kill, wait,
    stop, pause, unpause and restart answer 404 with the message
    "No such container: <reference>", the /json handler answers 404 with
    the message "no such container", and in every case the failed lookup
    is the only runtime call made. *)
Theorem C1_unresolved_reference_404 (r : Request) (wld wld' : World) (err : error) :
  rt_LookupContainer runtime (mux_Vars r "name") wld = (inr err, wld') ->
  Forall (fun handler =>
            serve handler r wld
            = {| world := wld';
                 calls := [CLookupContainer (mux_Vars r "name")];
                 w := errorResponse ("No such container: " +:+ mux_Vars r "name")
                        http.StatusNotFound (Some err) |})
         (operations runtime ParseSignal Sprintf0 Quote)
  /\ serve (container runtime) r wld
     = {| world := wld';
          calls := [CLookupContainer (mux_Vars r "name")];
          w := errorResponse "no such container" http.StatusNotFound (Some err) |}.
Proof.
  intros Hlookup. split.
  - unfold operations. repeat constructor; unfold_handler; answer Hlookup; reflexivity.
  - unfold_handler. answer Hlookup. reflexivity.
Qed.
(** C2: kill and restart of a container whose state is Stopped or Exited
    answer 409 Conflict; the runtime calls made are the lookup and the
    state query and nothing else, so neither Kill nor RestartWithTimeout
    is invoked. *)
Theorem C2_kill_restart_stopped_409 (r : Request) (wld wld1 wld2 : World)
    (con : Container) (state : ContainerStatus) :
  rt_LookupContainer runtime (mux_Vars r "name") wld = (inl con, wld1) ->
  rt_State runtime con wld1 = (inl state, wld2) ->
  state = ContainerStateStopped \/ state = ContainerStateExited ->
  serve (killContainer runtime ParseSignal) r wld
  = {| world := wld2;
       calls := [CLookupContainer (mux_Vars r "name"); CState con];
       w := errorResponse ("Container " +:+ mux_Vars r "name" +:+ " is not running")
              http.StatusConflict
              (Some (errors.New ("Cannot kill container " +:+ mux_Vars r "name"
                                 +:+ ", it is not running"))) |}
  /\ serve (restartContainer runtime) r wld
     = {| world := wld2;
          calls := [CLookupContainer (mux_Vars r "name"); CState con];
          w := errorResponse ("Container " +:+ mux_Vars r "name" +:+ " is not running")
                 http.StatusConflict
                 (Some (errors.New ("Container " +:+ mux_Vars r "name"
                                    +:+ " is not running"))) |}.
Proof.
  intros Hlookup Hstate Hstopped.
  split; unfold_handler; answer Hlookup; answer Hstate;
    destruct Hstopped; subst state; reflexivity.
Qed.

(** C3: stop of a container whose state is Stopped or Exited answers 304
    Not Modified; the runtime calls made are the lookup and the state
    query and nothing else, so neither Stop nor StopWithTimeout is
    invoked. *)
Theorem C3_stop_stopped_304 (r : Request) (wld wld1 wld2 : World)
    (con : Container) (state : ContainerStatus) :
  rt_LookupContainer runtime (mux_Vars r "name") wld = (inl con, wld1) ->
  rt_State runtime con wld1 = (inl state, wld2) ->
  state = ContainerStateStopped \/ state = ContainerStateExited ->
  serve (stopContainer runtime Sprintf0) r wld
  = {| world := wld2;
       calls := [CLookupContainer (mux_Vars r "name"); CState con];
       w := errorResponse "Something went wrong." http.StatusNotModified None |}.
Proof.
  intros Hlookup Hstate Hstopped.
  unfold_handler; answer Hlookup; answer Hstate.
  destruct Hstopped; subst state; reflexivity.
Qed.

(** C4, amended: for a container whose state query succeeds with a state
    other than Stopped and Exited, stop and restart with t=abc answer 400
    Bad Request with the parse error of Atoi as the cause.  Stop has then
    made the lookup and the state query only, restart also the StopTimeout
    query; Stop, StopWithTimeout and RestartWithTimeout are not invoked. *)
Theorem C4_timeout_abc_400 (r : Request) (wld wld1 wld2 wld3 : World)
    (con : Container) (state : ContainerStatus) (timeout : Z) :
  rt_LookupContainer runtime (mux_Vars r "name") wld = (inl con, wld1) ->
  rt_State runtime con wld1 = (inl state, wld2) ->
  state <> ContainerStateStopped /\ state <> ContainerStateExited ->
  rt_StopTimeout runtime con wld2 = (timeout, wld3) ->
  Values_Get (Form r) "t" = "abc" ->
  serve (stopContainer runtime Sprintf0) r wld
  = {| world := wld2;
       calls := [CLookupContainer (mux_Vars r "name"); CState con];
       w := errorResponse "Something went wrong." http.StatusBadRequest
              (Some (withMessage (NumError "Atoi" "abc" ErrSyntax)
                       "Unable to parse parameter 't': abc")) |}
  /\ serve (restartContainer runtime) r wld
     = {| world := wld3;
          calls := [CLookupContainer (mux_Vars r "name"); CState con; CStopTimeout con];
          w := errorResponse "Something went wrong." http.StatusBadRequest
                 (Some (withMessage (NumError "Atoi" "abc" ErrSyntax)
                          "Unable to parse parameter 't': abc")) |}.
Proof.
  intros Hlookup Hstate [Hs He] Htimeout Ht.
  split; unfold_handler; answer Hlookup; answer Hstate;
    answer (stopped_false _ Hs He); [| answer Htimeout ]; rewrite Ht;
    reflexivity.
Qed.
(** C5, amended: for a container that is neither Stopped nor Exited, the
    non-empty t parameter of stop and restart is read by Atoi as a signed
    decimal integer.  A t that is not an integer literal within the range
    of int is answered with 400 and neither handler calls stop or restart
    on the runtime.  A t that denotes a non-negative n within the range of
    int makes StopWithTimeout, respectively RestartWithTimeout, receive
    exactly n. *)
Theorem C5_timeout_read_by_Atoi (r : Request) (wld wld1 wld2 wld3 : World)
    (con : Container) (state : ContainerStatus) (timeout : Z) (t : string) :
  rt_LookupContainer runtime (mux_Vars r "name") wld = (inl con, wld1) ->
  rt_State runtime con wld1 = (inl state, wld2) ->
  state <> ContainerStateStopped /\ state <> ContainerStateExited ->
  rt_StopTimeout runtime con wld2 = (timeout, wld3) ->
  Values_Get (Form r) "t" = t ->
  t <> "" ->
  ((forall n, Decimal.integer t = Some n -> Decimal.inRange n = false) ->
   exists cause : error,
     serve (stopContainer runtime Sprintf0) r wld
     = {| world := wld2;
          calls := [CLookupContainer (mux_Vars r "name"); CState con];
          w := errorResponse "Something went wrong." http.StatusBadRequest (Some cause) |}
     /\ serve (restartContainer runtime) r wld
        = {| world := wld3;
             calls := [CLookupContainer (mux_Vars r "name"); CState con; CStopTimeout con];
             w := errorResponse "Something went wrong." http.StatusBadRequest
                    (Some cause) |})
  /\ (forall n, Decimal.integer t = Some n -> 0 <= n <= Decimal.maxInt ->
      calls (serve (stopContainer runtime Sprintf0) r wld)
      = [CLookupContainer (mux_Vars r "name"); CState con; CStopWithTimeout con n]
      /\ calls (serve (restartContainer runtime) r wld)
         = [CLookupContainer (mux_Vars r "name"); CState con; CStopTimeout con;
            CRestartWithTimeout con n]).
Proof.
  intros Hlookup Hstate [Hs He] Htimeout Ht Hne.
  pose proof (len_nonempty _ Hne) as Hlen. split.
  - intros Hbad. destruct (Atoi_rejects t Hbad) as (v & k & Hatoi).
    eexists. split; unfold_handler; answer Hlookup; answer Hstate;
      answer (stopped_false _ Hs He); [| answer Htimeout ];
      rewrite Ht, Hlen, Hatoi; reflexivity.
  - intros n Hn Hrange.
    assert (Hin : Decimal.inRange n = true)
      by (apply inRange_spec; unfold Decimal.maxInt in Hrange; lia).
    pose proof (Atoi_accepts t n Hn Hin) as Hatoi.
    split; unfold_handler; answer Hlookup; answer Hstate;
      answer (stopped_false _ Hs He); [| answer Htimeout ];
      rewrite Ht, Hlen, Hatoi, (uint_small n Hrange); cbn [world calls w fst snd].
    + destruct (rt_StopWithTimeout runtime con n wld2) as [[e|] wld'];
        reflexivity.
    + destruct (rt_RestartWithTimeout runtime con n wld3) as [[e|] wld'];
        reflexivity.
Qed.

(** C6, amended: a DELETE on /containers/{name}/json for a reference that
    resolves, whose link parameter has a non-empty first value, answers 400
    Bad Request whatever the other parameters are; the lookup is the only
    runtime call, so RemoveContainer is not invoked. *)
Theorem C6_link_rejected_400 (r : Request) (wld wld1 : World) (con : Container) :
  rt_LookupContainer runtime (mux_Vars r "name") wld = (inl con, wld1) ->
  Method r = "DELETE" ->
  Values_Get (Form r) "link" <> "" ->
  exists cause : error,
    serve (container runtime) r wld
    = {| world := wld1;
         calls := [CLookupContainer (mux_Vars r "name")];
         w := errorResponse "Something went wrong." http.StatusBadRequest (Some cause) |}.
Proof.
  intros Hlookup Hmethod Hlink.
  unfold_handler; answer Hlookup.
  rewrite (bool_decide_eq_true_2 _ Hmethod), (len_nonempty _ Hlink).
  destruct (0 <? len (Values_Get (Form r) "force"));
    [ destruct (strconv.ParseBool (Values_Get (Form r) "force")) as [force [e1|]] | ];
    try (eexists; reflexivity);
    (destruct (0 <? len (Values_Get (Form r) "v"));
     [ destruct (strconv.ParseBool (Values_Get (Form r) "v")) as [vols [e2|]] | ]);
    eexists; reflexivity.
Qed.

(** C7: wait on a reference that resolves calls Wait once and answers 200
    with the JSON body {StatusCode, Error: {Message}}: StatusCode is the
    exit code Wait returned, Message is empty when Wait returned no error
    and is the text of the error otherwise, hence non-empty whenever that
    text is. *)
Theorem C7_wait_body (r : Request) (wld wld1 wld2 : World) (con : Container)
    (exitCode : Z) (err : option error) :
  rt_LookupContainer runtime (mux_Vars r "name") wld = (inl con, wld1) ->
  rt_Wait runtime con wld1 = ((exitCode, err), wld2) ->
  exists msg : string,
    serve (waitContainer runtime Quote) r wld
    = {| world := wld2;
         calls := [CLookupContainer (mux_Vars r "name"); CWait con];
         w := {| Header := {[ "Content-Type" := "application/json" ]};
                 status := Some http.StatusOK;
                 body := [JSON {| ContainerWait.StatusCode := exitCode;
                                  ContainerWait.Error :=
                                    {| ContainerWait.Message := msg |} |}] |} |}
    /\ (err = None -> msg = "")
    /\ (forall e, err = Some e ->
          msg = error_Error Quote e /\ (error_Error Quote e <> "" -> msg <> "")).
Proof.
  intros Hlookup Hwait.
  exists (match err with Some e => error_Error Quote e | None => "" end).
  split; [| split].
  - unfold_handler; answer Hlookup; answer Hwait. reflexivity.
  - intros ->. reflexivity.
  - intros e ->. split; [reflexivity | trivial].
Qed.

(** C8: without a t parameter, stop of a container that is neither Stopped
    nor Exited calls the zero-argument Stop, and restart calls
    RestartWithTimeout with the value StopTimeout() returned; when that
    call succeeds the answer is 204 with an empty body line. *)
Theorem C8_default_timeout (r : Request) (wld wld1 wld2 wld3 wld3' wld4 : World)
    (con : Container) (state : ContainerStatus) (timeout : Z)
    (stopError restartError : option error) :
  rt_LookupContainer runtime (mux_Vars r "name") wld = (inl con, wld1) ->
  rt_State runtime con wld1 = (inl state, wld2) ->
  state <> ContainerStateStopped /\ state <> ContainerStateExited ->
  Form r !! "t" = None ->
  rt_Stop runtime con wld2 = (stopError, wld3) ->
  rt_StopTimeout runtime con wld2 = (timeout, wld3') ->
  rt_RestartWithTimeout runtime con timeout wld3' = (restartError, wld4) ->
  (world (serve (stopContainer runtime Sprintf0) r wld) = wld3
   /\ calls (serve (stopContainer runtime Sprintf0) r wld)
      = [CLookupContainer (mux_Vars r "name"); CState con; CStop con]
   /\ (stopError = None -> w (serve (stopContainer runtime Sprintf0) r wld) = noContent))
  /\ (world (serve (restartContainer runtime) r wld) = wld4
      /\ calls (serve (restartContainer runtime) r wld)
         = [CLookupContainer (mux_Vars r "name"); CState con; CStopTimeout con;
            CRestartWithTimeout con timeout]
      /\ (restartError = None -> w (serve (restartContainer runtime) r wld) = noContent)).
Proof.
  intros Hlookup Hstate [Hs He] Ht Hstop Htimeout Hrestart.
  apply Values_Get_absent in Ht.
  split.
  - unfold_handler; answer Hlookup; answer Hstate.
    answer (stopped_false _ Hs He). rewrite Ht. answer len_empty.
    answer Hstop.
    destruct stopError; (repeat split; [reflexivity || discriminate ..]).
  - unfold_handler; answer Hlookup; answer Hstate.
    answer (stopped_false _ Hs He). answer Htimeout.
    rewrite Ht. answer len_empty.
    answer Hrestart.
    destruct restartError; (repeat split; [reflexivity || discriminate ..]).
Qed.

(** C9, amended: on the /json resource, a request whose reference resolves
    and whose verb is not DELETE answers 500 with the API message
    "Something went wrong." and, as its cause, the error
    "<verb> is not implemented for containers"; the lookup is the only
    runtime call. *)
Theorem C9_verb_not_implemented_500 (r : Request) (wld wld1 : World) (con : Container) :
  rt_LookupContainer runtime (mux_Vars r "name") wld = (inl con, wld1) ->
  Method r <> "DELETE" ->
  serve (container runtime) r wld
  = {| world := wld1;
       calls := [CLookupContainer (mux_Vars r "name")];
       w := errorResponse "Something went wrong." http.StatusInternalServerError
              (Some (errors.New (Method r +:+ " is not implemented for containers"))) |}.
Proof.
  intros Hlookup Hmethod.
  unfold_handler; answer Hlookup.
  rewrite (bool_decide_eq_false_2 _ Hmethod). reflexivity.
Qed.

(** C10: in kill the state gate comes before the signal is parsed.  For a
    container that is Stopped or Exited the answer is 409 (so never 400)
    for every form and every signal parser, after the lookup and the
    state query only.  For a container in any other state, a signal
    parameter that is absent or empty makes the handler call Kill with
    SIGKILL. *)
Theorem C10_kill_gate_before_signal (r : Request) (wld wld1 wld2 wld3 : World)
    (con : Container) (state : ContainerStatus) (killError : option error) :
  rt_LookupContainer runtime (mux_Vars r "name") wld = (inl con, wld1) ->
  rt_State runtime con wld1 = (inl state, wld2) ->
  rt_Kill runtime con SIGKILL wld2 = (killError, wld3) ->
  (state = ContainerStateStopped \/ state = ContainerStateExited ->
   forall (parse : string -> Z * option error),
     serve (killContainer runtime parse) r wld
     = {| world := wld2;
          calls := [CLookupContainer (mux_Vars r "name"); CState con];
          w := errorResponse ("Container " +:+ mux_Vars r "name" +:+ " is not running")
                 http.StatusConflict
                 (Some (errors.New ("Cannot kill container " +:+ mux_Vars r "name"
                                    +:+ ", it is not running"))) |})
  /\ (state <> ContainerStateStopped /\ state <> ContainerStateExited ->
      Values_Get (Form r) "signal" = "" ->
      forall (parse : string -> Z * option error),
        world (serve (killContainer runtime parse) r wld) = wld3
        /\ calls (serve (killContainer runtime parse) r wld)
           = [CLookupContainer (mux_Vars r "name"); CState con; CKill con SIGKILL]).
Proof.
  intros Hlookup Hstate Hkill. split.
  - intros Hstopped parse.
    unfold_handler; answer Hlookup; answer Hstate.
    answer (stopped_true _ Hstopped). reflexivity.
  - intros [Hs He] Hsignal parse.
    unfold_handler; answer Hlookup; answer Hstate.
    answer (stopped_false _ Hs He). rewrite Hsignal. answer len_empty.
    change (uint SIGKILL) with SIGKILL. answer Hkill.
    destruct killError; split; reflexivity.
Qed.
End Claims.

(** ** The theorems on the small engine *)

Lemma C1_unresolved_reference_404_witness :
  Forall (fun handler =>
            serve handler (Fake.request "POST" "c3" []) Fake.world0
            = {| world := Fake.world0;
                 calls := [CLookupContainer "c3"];
                 w := errorResponse "No such container: c3" http.StatusNotFound
                        (Some (Fake.noSuchContainer "c3")) |})
         (operations Fake.rt0 Fake.ParseSignal Fake.Sprintf0 Fake.Quote)
  /\ serve (container Fake.rt0) (Fake.request "POST" "c3" []) Fake.world0
     = {| world := Fake.world0;
          calls := [CLookupContainer "c3"];
          w := errorResponse "no such container" http.StatusNotFound
                 (Some (Fake.noSuchContainer "c3")) |}.
Proof.
  apply (C1_unresolved_reference_404 Fake.rt0 Fake.ParseSignal Fake.Sprintf0 Fake.Quote
           (Fake.request "POST" "c3" []) Fake.world0 Fake.world0
           (Fake.noSuchContainer "c3")).
  vm_compute. reflexivity.
Defined.

Lemma C2_kill_restart_stopped_409_witness :
  serve (killContainer Fake.rt0 Fake.ParseSignal) (Fake.request "POST" "c2" []) Fake.world0
  = {| world := Fake.world0;
       calls := [CLookupContainer "c2"; CState "c2"];
       w := errorResponse "Container c2 is not running" http.StatusConflict
              (Some (errors.New "Cannot kill container c2, it is not running")) |}
  /\ serve (restartContainer Fake.rt0) (Fake.request "POST" "c2" []) Fake.world0
     = {| world := Fake.world0;
          calls := [CLookupContainer "c2"; CState "c2"];
          w := errorResponse "Container c2 is not running" http.StatusConflict
                 (Some (errors.New "Container c2 is not running")) |}.
Proof.
  apply (C2_kill_restart_stopped_409 Fake.rt0 Fake.ParseSignal
           (Fake.request "POST" "c2" []) Fake.world0 Fake.world0 Fake.world0
           "c2" ContainerStateExited).
  - vm_compute. reflexivity.
  - vm_compute. reflexivity.
  - right. reflexivity.
Defined.

Lemma C3_stop_stopped_304_witness :
  serve (stopContainer Fake.rt0 Fake.Sprintf0) (Fake.request "POST" "c2" []) Fake.world0
  = {| world := Fake.world0;
       calls := [CLookupContainer "c2"; CState "c2"];
       w := errorResponse "Something went wrong." http.StatusNotModified None |}.
Proof.
  apply (C3_stop_stopped_304 Fake.rt0 Fake.Sprintf0
           (Fake.request "POST" "c2" []) Fake.world0 Fake.world0 Fake.world0
           "c2" ContainerStateExited).
  - vm_compute. reflexivity.
  - vm_compute. reflexivity.
  - right. reflexivity.
Defined.

Lemma C4_timeout_abc_400_witness :
  serve (stopContainer Fake.rt0 Fake.Sprintf0)
        (Fake.request "POST" "c1" [("t", ["abc"])]) Fake.world0
  = {| world := Fake.world0;
       calls := [CLookupContainer "c1"; CState "c1"];
       w := errorResponse "Something went wrong." http.StatusBadRequest
              (Some (withMessage (NumError "Atoi" "abc" ErrSyntax)
                       "Unable to parse parameter 't': abc")) |}
  /\ serve (restartContainer Fake.rt0)
           (Fake.request "POST" "c1" [("t", ["abc"])]) Fake.world0
     = {| world := Fake.world0;
          calls := [CLookupContainer "c1"; CState "c1"; CStopTimeout "c1"];
          w := errorResponse "Something went wrong." http.StatusBadRequest
                 (Some (withMessage (NumError "Atoi" "abc" ErrSyntax)
                          "Unable to parse parameter 't': abc")) |}.
Proof.
  apply (C4_timeout_abc_400 Fake.rt0 Fake.Sprintf0
           (Fake.request "POST" "c1" [("t", ["abc"])])
           Fake.world0 Fake.world0 Fake.world0 Fake.world0
           "c1" ContainerStateRunning 10).
  - vm_compute. reflexivity.
  - vm_compute. reflexivity.
  - split; discriminate.
  - vm_compute. reflexivity.
  - vm_compute. reflexivity.
Defined.

(** C4 as stated fails on a stopped container: with t=abc, stop of the
    exited c2 answers 304 and restart answers 409, not 400. *)
Lemma C4_counterexample :
  rt_State Fake.rt0 "c2" Fake.world0 = (inl ContainerStateExited, Fake.world0)
  /\ Values_Get (Form (Fake.request "POST" "c2" [("t", ["abc"])])) "t" = "abc"
  /\ status (w (serve (stopContainer Fake.rt0 Fake.Sprintf0)
                      (Fake.request "POST" "c2" [("t", ["abc"])]) Fake.world0))
     = Some http.StatusNotModified
  /\ status (w (serve (restartContainer Fake.rt0)
                      (Fake.request "POST" "c2" [("t", ["abc"])]) Fake.world0))
     = Some http.StatusConflict
  /\ status (w (serve (stopContainer Fake.rt0 Fake.Sprintf0)
                      (Fake.request "POST" "c2" [("t", ["abc"])]) Fake.world0))
     <> Some http.StatusBadRequest.
Proof. vm_compute. repeat split; discriminate. Qed.

Lemma C5_timeout_read_by_Atoi_witness :
  (exists cause : error,
     serve (stopContainer Fake.rt0 Fake.Sprintf0)
           (Fake.request "POST" "c1" [("t", ["1.5"])]) Fake.world0
     = {| world := Fake.world0;
          calls := [CLookupContainer "c1"; CState "c1"];
          w := errorResponse "Something went wrong." http.StatusBadRequest (Some cause) |}
     /\ serve (restartContainer Fake.rt0)
              (Fake.request "POST" "c1" [("t", ["1.5"])]) Fake.world0
        = {| world := Fake.world0;
             calls := [CLookupContainer "c1"; CState "c1"; CStopTimeout "c1"];
             w := errorResponse "Something went wrong." http.StatusBadRequest
                    (Some cause) |})
  /\ (calls (serve (stopContainer Fake.rt0 Fake.Sprintf0)
                   (Fake.request "POST" "c1" [("t", ["30"])]) Fake.world0)
      = [CLookupContainer "c1"; CState "c1"; CStopWithTimeout "c1" 30]
      /\ calls (serve (restartContainer Fake.rt0)
                      (Fake.request "POST" "c1" [("t", ["30"])]) Fake.world0)
         = [CLookupContainer "c1"; CState "c1"; CStopTimeout "c1";
            CRestartWithTimeout "c1" 30]).
Proof.
  split.
  - apply (C5_timeout_read_by_Atoi Fake.rt0 Fake.Sprintf0
             (Fake.request "POST" "c1" [("t", ["1.5"])])
             Fake.world0 Fake.world0 Fake.world0 Fake.world0
             "c1" ContainerStateRunning 10 "1.5").
    + vm_compute. reflexivity.
    + vm_compute. reflexivity.
    + split; discriminate.
    + vm_compute. reflexivity.
    + vm_compute. reflexivity.
    + discriminate.
    + intros n Hn. vm_compute in Hn. discriminate Hn.
  - apply (C5_timeout_read_by_Atoi Fake.rt0 Fake.Sprintf0
             (Fake.request "POST" "c1" [("t", ["30"])])
             Fake.world0 Fake.world0 Fake.world0 Fake.world0
             "c1" ContainerStateRunning 10 "30").
    + vm_compute. reflexivity.
    + vm_compute. reflexivity.
    + split; discriminate.
    + vm_compute. reflexivity.
    + vm_compute. reflexivity.
    + discriminate.
    + vm_compute. reflexivity.
    + vm_compute. split; discriminate.
Defined.

(** C5 as stated fails at t=-1: Atoi reads it as -1, nothing answers 400
    and StopWithTimeout is called with uint(-1).  It also fails at the
    non-negative integer 2^63, which is outside the range of int and is
    answered with 400. *)
Lemma C5_counterexample :
  serve (stopContainer Fake.rt0 Fake.Sprintf0)
        (Fake.request "POST" "c1" [("t", ["-1"])]) Fake.world0
  = {| world := <["c1" := ContainerStateStopped]> Fake.world0;
       calls := [CLookupContainer "c1"; CState "c1";
                 CStopWithTimeout "c1" 18446744073709551615];
       w := noContent |}
  /\ calls (serve (restartContainer Fake.rt0)
                  (Fake.request "POST" "c1" [("t", ["-1"])]) Fake.world0)
     = [CLookupContainer "c1"; CState "c1"; CStopTimeout "c1";
        CRestartWithTimeout "c1" 18446744073709551615]
  /\ serve (stopContainer Fake.rt0 Fake.Sprintf0)
           (Fake.request "POST" "c1" [("t", ["9223372036854775808"])]) Fake.world0
     = {| world := Fake.world0;
          calls := [CLookupContainer "c1"; CState "c1"];
          w := errorResponse "Something went wrong." http.StatusBadRequest
                 (Some (withMessage (NumError "Atoi" "9223372036854775808" ErrRange)
                          "Unable to parse parameter 't': 9223372036854775808")) |}.
Proof. vm_compute. repeat split; reflexivity. Qed.

Lemma C6_link_rejected_400_witness :
  exists cause : error,
    serve (container Fake.rt0)
          (Fake.request "DELETE" "c1" [("force", ["true"]); ("link", ["1"])]) Fake.world0
    = {| world := Fake.world0;
         calls := [CLookupContainer "c1"];
         w := errorResponse "Something went wrong." http.StatusBadRequest (Some cause) |}.
Proof.
  apply (C6_link_rejected_400 Fake.rt0
           (Fake.request "DELETE" "c1" [("force", ["true"]); ("link", ["1"])])
           Fake.world0 Fake.world0 "c1").
  - vm_compute. reflexivity.
  - reflexivity.
  - vm_compute. discriminate.
Defined.

(** C6 as stated fails when link is present with an empty value: the
    container is removed and the answer is 204. *)
Lemma C6_counterexample :
  Form (Fake.request "DELETE" "c1" [("force", ["true"]); ("link", [""])]) !! "link"
  = Some [""]
  /\ serve (container Fake.rt0)
           (Fake.request "DELETE" "c1" [("force", ["true"]); ("link", [""])]) Fake.world0
     = {| world := delete "c1" Fake.world0;
          calls := [CLookupContainer "c1"; CRemoveContainer "c1" true false];
          w := noContent |}.
Proof. vm_compute. split; reflexivity. Qed.

Lemma C7_wait_body_witness :
  serve (waitContainer Fake.rt137 Fake.Quote) (Fake.request "POST" "c1" []) Fake.world0
  = {| world := Fake.world0;
       calls := [CLookupContainer "c1"; CWait "c1"];
       w := {| Header := {[ "Content-Type" := "application/json" ]};
               status := Some http.StatusOK;
               body := [JSON {| ContainerWait.StatusCode := 137;
                                ContainerWait.Error :=
                                  {| ContainerWait.Message := "container was killed" |} |}] |} |}
  /\ serve (waitContainer Fake.rt0 Fake.Quote) (Fake.request "POST" "c1" []) Fake.world0
     = {| world := Fake.world0;
          calls := [CLookupContainer "c1"; CWait "c1"];
          w := {| Header := {[ "Content-Type" := "application/json" ]};
                  status := Some http.StatusOK;
                  body := [JSON {| ContainerWait.StatusCode := 0;
                                   ContainerWait.Error :=
                                     {| ContainerWait.Message := "" |} |}] |} |}.
Proof.
  split.
  - destruct (C7_wait_body Fake.rt137 Fake.Quote (Fake.request "POST" "c1" [])
                Fake.world0 Fake.world0 Fake.world0 "c1" 137
                (Some (errorString "container was killed")))
      as (msg & Hserve & _ & Herr).
    + vm_compute. reflexivity.
    + vm_compute. reflexivity.
    + destruct (Herr _ eq_refl) as [Hmsg _]. rewrite Hserve, Hmsg. reflexivity.
  - destruct (C7_wait_body Fake.rt0 Fake.Quote (Fake.request "POST" "c1" [])
                Fake.world0 Fake.world0 Fake.world0 "c1" 0 None)
      as (msg & Hserve & Hnone & _).
    + vm_compute. reflexivity.
    + vm_compute. reflexivity.
    + rewrite Hserve, (Hnone eq_refl). reflexivity.
Defined.

Lemma C8_default_timeout_witness :
  (world (serve (stopContainer Fake.rt0 Fake.Sprintf0)
                (Fake.request "POST" "c1" []) Fake.world0)
   = <["c1" := ContainerStateStopped]> Fake.world0
   /\ calls (serve (stopContainer Fake.rt0 Fake.Sprintf0)
                   (Fake.request "POST" "c1" []) Fake.world0)
      = [CLookupContainer "c1"; CState "c1"; CStop "c1"]
   /\ w (serve (stopContainer Fake.rt0 Fake.Sprintf0)
               (Fake.request "POST" "c1" []) Fake.world0) = noContent)
  /\ (world (serve (restartContainer Fake.rt0) (Fake.request "POST" "c1" []) Fake.world0)
      = <["c1" := ContainerStateRunning]> Fake.world0
      /\ calls (serve (restartContainer Fake.rt0) (Fake.request "POST" "c1" []) Fake.world0)
         = [CLookupContainer "c1"; CState "c1"; CStopTimeout "c1";
            CRestartWithTimeout "c1" 10]
      /\ w (serve (restartContainer Fake.rt0) (Fake.request "POST" "c1" []) Fake.world0)
         = noContent).
Proof.
  destruct (C8_default_timeout Fake.rt0 Fake.Sprintf0 (Fake.request "POST" "c1" [])
              Fake.world0 Fake.world0 Fake.world0
              (<["c1" := ContainerStateStopped]> Fake.world0) Fake.world0
              (<["c1" := ContainerStateRunning]> Fake.world0)
              "c1" ContainerStateRunning 10 None None)
    as [(Hw1 & Hc1 & Hr1) (Hw2 & Hc2 & Hr2)].
  - vm_compute. reflexivity.
  - vm_compute. reflexivity.
  - split; discriminate.
  - vm_compute. reflexivity.
  - vm_compute. reflexivity.
  - vm_compute. reflexivity.
  - vm_compute. reflexivity.
  - repeat split; auto.
Defined.

Lemma C9_verb_not_implemented_500_witness :
  serve (container Fake.rt0) (Fake.request "GET" "c1" []) Fake.world0
  = {| world := Fake.world0;
       calls := [CLookupContainer "c1"];
       w := errorResponse "Something went wrong." http.StatusInternalServerError
              (Some (errors.New "GET is not implemented for containers")) |}.
Proof.
  apply (C9_verb_not_implemented_500 Fake.rt0 (Fake.request "GET" "c1" [])
           Fake.world0 Fake.world0 "c1").
  - vm_compute. reflexivity.
  - vm_compute. discriminate.
Defined.

(** C9 as stated fails for a reference that does not resolve: a GET for
    the unknown c3 answers 404.  And where the reference resolves, the
    message of the envelope is "Something went wrong."; the text about the
    verb is its cause. *)
Lemma C9_counterexample :
  serve (container Fake.rt0) (Fake.request "GET" "c3" []) Fake.world0
  = {| world := Fake.world0;
       calls := [CLookupContainer "c3"];
       w := errorResponse "no such container" http.StatusNotFound
              (Some (Fake.noSuchContainer "c3")) |}
  /\ body (w (serve (container Fake.rt0) (Fake.request "GET" "c1" []) Fake.world0))
     = [ErrorEnvelope "Something went wrong."
          (Some (errors.New "GET is not implemented for containers"))].
Proof. vm_compute. split; reflexivity. Qed.

Lemma C10_kill_gate_before_signal_witness :
  (forall parse : string -> Z * option error,
     serve (killContainer Fake.rt0 parse)
           (Fake.request "POST" "c2" [("signal", ["BOGUS"])]) Fake.world0
     = {| world := Fake.world0;
          calls := [CLookupContainer "c2"; CState "c2"];
          w := errorResponse "Container c2 is not running" http.StatusConflict
                 (Some (errors.New "Cannot kill container c2, it is not running")) |})
  /\ (forall parse : string -> Z * option error,
        world (serve (killContainer Fake.rt0 parse)
                     (Fake.request "POST" "c1" [("signal", [])]) Fake.world0)
        = <["c1" := ContainerStateExited]> Fake.world0
        /\ calls (serve (killContainer Fake.rt0 parse)
                        (Fake.request "POST" "c1" [("signal", [])]) Fake.world0)
           = [CLookupContainer "c1"; CState "c1"; CKill "c1" 9]).
Proof.
  split.
  - apply (C10_kill_gate_before_signal Fake.rt0
             (Fake.request "POST" "c2" [("signal", ["BOGUS"])])
             Fake.world0 Fake.world0 Fake.world0 Fake.world0
             "c2" ContainerStateExited None).
    + vm_compute. reflexivity.
    + vm_compute. reflexivity.
    + vm_compute. reflexivity.
    + right. reflexivity.
  - apply (C10_kill_gate_before_signal Fake.rt0
             (Fake.request "POST" "c1" [("signal", [])])
             Fake.world0 Fake.world0 Fake.world0
             (<["c1" := ContainerStateExited]> Fake.world0)
             "c1" ContainerStateRunning None).
    + vm_compute. reflexivity.
    + vm_compute. reflexivity.
    + vm_compute. reflexivity.
    + split; discriminate.
    + vm_compute. reflexivity.
Defined.

(** ** Beyond the claims: every path of every handler *)

(** Split on the answer of the next runtime call. *)
Ltac split_call :=
  match goal with
  | |- context [rt_LookupContainer ?rt ?n ?wl] =>
      destruct (rt_LookupContainer rt n wl) as [[?con|?err] ?wld]
  | |- context [rt_State ?rt ?c ?wl] =>
      destruct (rt_State rt c wl) as [[?state|?err] ?wld]
  | |- context [rt_StopTimeout ?rt ?c ?wl] =>
      destruct (rt_StopTimeout rt c wl) as [?timeout ?wld]
  | |- context [rt_Kill ?rt ?c ?sg ?wl] =>
      destruct (rt_Kill rt c sg wl) as [[?err|] ?wld]
  | |- context [rt_Pause ?rt ?c ?wl] =>
      destruct (rt_Pause rt c wl) as [[?err|] ?wld]
  | |- context [rt_Unpause ?rt ?c ?wl] =>
      destruct (rt_Unpause rt c wl) as [[?err|] ?wld]
  | |- context [rt_Stop ?rt ?c ?wl] =>
      destruct (rt_Stop rt c wl) as [[?err|] ?wld]
  | |- context [rt_StopWithTimeout ?rt ?c ?t ?wl] =>
      destruct (rt_StopWithTimeout rt c t wl) as [[?err|] ?wld]
  | |- context [rt_RestartWithTimeout ?rt ?c ?t ?wl] =>
      destruct (rt_RestartWithTimeout rt c t wl) as [[?err|] ?wld]
  | |- context [rt_Wait ?rt ?c ?wl] =>
      destruct (rt_Wait rt c wl) as [[?exitCode [?err|]] ?wld]
  | |- context [rt_RemoveContainer ?rt ?c ?f ?v ?wl] =>
      destruct (rt_RemoveContainer rt c f v wl) as [[?err|] ?wld]
  end; cbn [world calls w fst snd].

(** Split on the next test the handler makes on the request. *)
Ltac split_test parse :=
  match goal with
  | |- context [stopped ?s] => destruct (stopped s)
  | |- context [bool_decide (Method ?r = "DELETE")] =>
      destruct (bool_decide (Method r = "DELETE"))
  | |- context [0 <? len ?s] => destruct (0 <? len s)
  | |- context [strconv.Atoi ?s] => destruct (strconv.Atoi s) as [?n [?err|]]
  | |- context [strconv.ParseBool ?s] => destruct (strconv.ParseBool s) as [?b [?err|]]
  | |- context [parse ?s] => destruct (parse s) as [?sig [?err|]]
  end; cbn [world calls w fst snd].

(** Every path of a handler, one goal each. *)
Ltac all_paths parse :=
  unfold_handler; repeat first [split_call | split_test parse].

Lemma ParseBool_rejects (value : string) :
  value ∉ boolLiterals ->
  strconv.ParseBool value = (false, Some (NumError "ParseBool" value ErrSyntax)).
Proof.
  intros Hbad. unfold strconv.ParseBool, boolLiterals in *.
  rewrite !bool_decide_eq_false_2; [reflexivity | |];
    intros Hin; apply Hbad; rewrite !elem_of_cons in *; tauto.
Qed.

Lemma uint_negative (n : Z) : Decimal.minInt <= n < 0 -> uint n = n + 2 ^ 64.
Proof.
  unfold uint, Decimal.minInt. intros H.
  change (2 ^ intSize) with 18446744073709551616.
  change (2 ^ 64) with 18446744073709551616.
  change (2 ^ 63) with 9223372036854775808 in H.
  symmetry. apply (Z.mod_unique_pos _ _ (-1)); lia.
Qed.

Section Coverage.
Context {Container World : Type}.
Variable runtime : Runtime Container World.
Variable ParseSignal : string -> Z * option error.
Variable Sprintf0 : string -> string.
Variable Quote : string -> string.

(** X1: the statuses each handler can answer with, whatever the request
    and whatever the runtime does; the collection resource always answers
    404 and never calls the runtime. *)
Theorem X1_status_table (r : Request) (wld : World) :
  In (status (w (serve (killContainer runtime ParseSignal) r wld)))
     [Some http.StatusNoContent; Some http.StatusBadRequest; Some http.StatusNotFound;
      Some http.StatusConflict; Some http.StatusInternalServerError]
  /\ In (status (w (serve (stopContainer runtime Sprintf0) r wld)))
        [Some http.StatusNoContent; Some http.StatusNotModified;
         Some http.StatusBadRequest; Some http.StatusNotFound;
         Some http.StatusInternalServerError]
  /\ In (status (w (serve (restartContainer runtime) r wld)))
        [Some http.StatusNoContent; Some http.StatusBadRequest; Some http.StatusNotFound;
         Some http.StatusConflict; Some http.StatusInternalServerError]
  /\ In (status (w (serve (pauseContainer runtime) r wld)))
        [Some http.StatusNoContent; Some http.StatusNotFound;
         Some http.StatusInternalServerError]
  /\ In (status (w (serve (unpauseContainer runtime) r wld)))
        [Some http.StatusNoContent; Some http.StatusNotFound;
         Some http.StatusInternalServerError]
  /\ In (status (w (serve (waitContainer runtime Quote) r wld)))
        [Some http.StatusOK; Some http.StatusNotFound]
  /\ In (status (w (serve (container runtime) r wld)))
        [Some http.StatusNoContent; Some http.StatusBadRequest; Some http.StatusNotFound;
         Some http.StatusInternalServerError]
  /\ serve (@containers Container World) r wld
     = {| world := wld;
          calls := [];
          w := {| Header := {[ "Content-Type" := "text/plain; charset=utf-8";
                               "X-Content-Type-Options" := "nosniff" ]};
                  status := Some http.StatusNotFound;
                  body := [Text ("404 page not found" +:+ String (ascii_of_nat 10) "")] |} |}.
Proof.
  repeat split; first [reflexivity | all_paths ParseSignal; cbn; tauto].
Qed.

(** X2: on every path a handler first looks the reference up, queries the
    state at most once and makes at most one operation call. *)
Theorem X2_one_operation_at_most (r : Request) (wld : World) :
  Forall (fun handler =>
            head (calls (serve handler r wld)) = Some (CLookupContainer (mux_Vars r "name"))
            /\ (count isState (calls (serve handler r wld)) <= 1)%nat
            /\ (count operation (calls (serve handler r wld)) <= 1)%nat)
         (operations runtime ParseSignal Sprintf0 Quote ++ [container runtime]).
Proof.
  unfold operations. cbn [app].
  repeat first [apply List.Forall_nil | apply List.Forall_cons].
  all: all_paths ParseSignal; cbn; repeat split; first [reflexivity | lia].
Qed.

(** X3: a request that is turned down (304, 400, 404, 409) has made no
    operation call, and a request answered with 200 or 204 has made exactly
    one. *)
Theorem X3_refusals_do_nothing (r : Request) (wld : World) :
  Forall (fun handler =>
            (refusal (status (w (serve handler r wld))) ->
             count operation (calls (serve handler r wld)) = 0%nat)
            /\ (success (status (w (serve handler r wld))) ->
                count operation (calls (serve handler r wld)) = 1%nat))
         (operations runtime ParseSignal Sprintf0 Quote ++ [container runtime]).
Proof.
  unfold operations, refusal, success. cbn [app].
  repeat first [apply List.Forall_nil | apply List.Forall_cons].
  all: all_paths ParseSignal; cbn; split; intros H;
    repeat (destruct H as [H|H]); first [reflexivity | discriminate H].
Qed.
(** X4: pause and unpause do not look at the state of the container: once
    the reference resolves they call Pause, respectively Unpause, and answer
    204 when the call succeeds and 500 with the runtime's error otherwise. *)
Theorem X4_pause_unpause_pass_through (r : Request) (wld wld1 wld2 wld2' : World)
    (con : Container) (pauseError unpauseError : option error) :
  rt_LookupContainer runtime (mux_Vars r "name") wld = (inl con, wld1) ->
  rt_Pause runtime con wld1 = (pauseError, wld2) ->
  rt_Unpause runtime con wld1 = (unpauseError, wld2') ->
  serve (pauseContainer runtime) r wld
  = {| world := wld2;
       calls := [CLookupContainer (mux_Vars r "name"); CPause con];
       w := match pauseError with
            | None => noContent
            | Some e => errorResponse "Something went wrong."
                          http.StatusInternalServerError (Some e)
            end |}
  /\ serve (unpauseContainer runtime) r wld
     = {| world := wld2';
          calls := [CLookupContainer (mux_Vars r "name"); CUnpause con];
          w := match unpauseError with
               | None => noContent
               | Some e => errorResponse "Something went wrong."
                             http.StatusInternalServerError (Some e)
               end |}.
Proof.
  intros Hlookup Hpause Hunpause.
  split; unfold_handler; answer Hlookup;
    [answer Hpause; destruct pauseError | answer Hunpause; destruct unpauseError];
    reflexivity.
Qed.

(** X5: when the state query fails, kill, stop and restart answer 500 and
    make no further call; kill and restart hand the runtime's error on as
    the cause, stop wraps it. *)
Theorem X5_state_query_failure_500 (r : Request) (wld wld1 wld2 : World)
    (con : Container) (err : error) :
  rt_LookupContainer runtime (mux_Vars r "name") wld = (inl con, wld1) ->
  rt_State runtime con wld1 = (inr err, wld2) ->
  serve (killContainer runtime ParseSignal) r wld
  = {| world := wld2;
       calls := [CLookupContainer (mux_Vars r "name"); CState con];
       w := errorResponse "Something went wrong." http.StatusInternalServerError
              (Some err) |}
  /\ serve (restartContainer runtime) r wld
     = {| world := wld2;
          calls := [CLookupContainer (mux_Vars r "name"); CState con];
          w := errorResponse "Something went wrong." http.StatusInternalServerError
                 (Some err) |}
  /\ serve (stopContainer runtime Sprintf0) r wld
     = {| world := wld2;
          calls := [CLookupContainer (mux_Vars r "name"); CState con];
          w := errorResponse "Something went wrong." http.StatusInternalServerError
                 (Some (withMessage err
                          (Sprintf0 ("unable to get state for " +:+ mux_Vars r "name"
                                     +:+ " : %!s(MISSING)")))) |}.
Proof.
  intros Hlookup Hstate.
  repeat split; unfold_handler; answer Hlookup; answer Hstate; reflexivity.
Qed.

(** X6: a DELETE without link removes the container with the two flags as
    the request gives them, false when absent or empty; the answer is 204
    when RemoveContainer succeeds and 500 with its error otherwise. *)
Theorem X6_remove_carries_flags (r : Request) (wld wld1 wld2 : World)
    (con : Container) (force vols : bool) (removeError : option error) :
  rt_LookupContainer runtime (mux_Vars r "name") wld = (inl con, wld1) ->
  Method r = "DELETE" ->
  flag (Values_Get (Form r) "force") force ->
  flag (Values_Get (Form r) "v") vols ->
  Values_Get (Form r) "link" = "" ->
  rt_RemoveContainer runtime con force vols wld1 = (removeError, wld2) ->
  serve (container runtime) r wld
  = {| world := wld2;
       calls := [CLookupContainer (mux_Vars r "name"); CRemoveContainer con force vols];
       w := match removeError with
            | None => noContent
            | Some e => errorResponse "Something went wrong."
                          http.StatusInternalServerError (Some e)
            end |}.
Proof.
  intros Hlookup Hmethod Hforce Hvols Hlink Hremove.
  unfold_handler; answer Hlookup.
  rewrite (bool_decide_eq_true_2 _ Hmethod), Hlink.
  destruct Hforce as [[-> ->] | [Hne ->]];
    rewrite ?(len_nonempty _ Hne);
    (destruct Hvols as [[-> ->] | [Hne' ->]];
     rewrite ?(len_nonempty _ Hne'));
    rewrite ?len_empty; cbn [world calls w fst snd];
    answer Hremove; destruct removeError; reflexivity.
Qed.

(** X7: a force or v that is neither empty nor one of the literals of
    ParseBool is answered with 400, the syntax error wrapped in the name and
    the value of the parameter; the container is not removed.  v is read
    only once force is fine. *)
Theorem X7_bad_flag_400 (r : Request) (wld wld1 : World) (con : Container) :
  rt_LookupContainer runtime (mux_Vars r "name") wld = (inl con, wld1) ->
  Method r = "DELETE" ->
  (Values_Get (Form r) "force" <> "" ->
   Values_Get (Form r) "force" ∉ boolLiterals ->
   serve (container runtime) r wld
   = {| world := wld1;
        calls := [CLookupContainer (mux_Vars r "name")];
        w := errorResponse "Something went wrong." http.StatusBadRequest
               (Some (withMessage
                        (NumError "ParseBool" (Values_Get (Form r) "force") ErrSyntax)
                        ("Unable to parse parameter 'force': "
                         +:+ Values_Get (Form r) "force"))) |})
  /\ (forall force, flag (Values_Get (Form r) "force") force ->
      Values_Get (Form r) "v" <> "" ->
      Values_Get (Form r) "v" ∉ boolLiterals ->
      serve (container runtime) r wld
      = {| world := wld1;
           calls := [CLookupContainer (mux_Vars r "name")];
           w := errorResponse "Something went wrong." http.StatusBadRequest
                  (Some (withMessage
                           (NumError "ParseBool" (Values_Get (Form r) "v") ErrSyntax)
                           ("Unable to parse parameter 'v': "
                            +:+ Values_Get (Form r) "v"))) |}).
Proof.
  intros Hlookup Hmethod. split.
  - intros Hne Hbad.
    unfold_handler; answer Hlookup.
    rewrite (bool_decide_eq_true_2 _ Hmethod), (len_nonempty _ Hne),
      (ParseBool_rejects _ Hbad).
    reflexivity.
  - intros force Hforce Hne Hbad.
    unfold_handler; answer Hlookup.
    rewrite (bool_decide_eq_true_2 _ Hmethod).
    destruct Hforce as [[-> ->] | [Hne' ->]];
      rewrite ?len_empty, ?(len_nonempty _ Hne'), (len_nonempty _ Hne),
        (ParseBool_rejects _ Hbad);
      reflexivity.
Qed.
(** X8: for a container past the state gate, a non-empty signal is handed
    to ParseSignal.  When the parser fails the answer is 400 with the wrapped
    parse error and Kill is not called; when it returns a signal, Kill
    receives that signal converted to uint, and the answer is 204, or 500
    with the wrapped error of Kill. *)
Theorem X8_kill_with_signal (r : Request) (wld wld1 wld2 wld3 : World)
    (con : Container) (state : ContainerStatus) (sig : Z)
    (killError : option error) :
  rt_LookupContainer runtime (mux_Vars r "name") wld = (inl con, wld1) ->
  rt_State runtime con wld1 = (inl state, wld2) ->
  state <> ContainerStateStopped /\ state <> ContainerStateExited ->
  Values_Get (Form r) "signal" <> "" ->
  rt_Kill runtime con (uint sig) wld2 = (killError, wld3) ->
  (forall e, ParseSignal (Values_Get (Form r) "signal") = (sig, Some e) ->
     serve (killContainer runtime ParseSignal) r wld
     = {| world := wld2;
          calls := [CLookupContainer (mux_Vars r "name"); CState con];
          w := errorResponse "Something went wrong." http.StatusBadRequest
                 (Some (withMessage e
                          ("unable to parse signal " +:+ Values_Get (Form r) "signal"))) |})
  /\ (ParseSignal (Values_Get (Form r) "signal") = (sig, None) ->
      serve (killContainer runtime ParseSignal) r wld
      = {| world := wld3;
           calls := [CLookupContainer (mux_Vars r "name"); CState con;
                     CKill con (uint sig)];
           w := match killError with
                | None => noContent
                | Some e =>
                    errorResponse "Something went wrong." http.StatusInternalServerError
                      (Some (withMessage e
                               ("unable to kill container " +:+ mux_Vars r "name")))
                end |}).
Proof.
  intros Hlookup Hstate [Hs He] Hne Hkill. split.
  - intros e Hparse.
    unfold_handler; answer Hlookup; answer Hstate.
    answer (stopped_false _ Hs He). rewrite (len_nonempty _ Hne), Hparse.
    reflexivity.
  - intros Hparse.
    unfold_handler; answer Hlookup; answer Hstate.
    answer (stopped_false _ Hs He). rewrite (len_nonempty _ Hne). answer Hparse.
    answer Hkill. destruct killError; reflexivity.
Qed.


(** X10: a negative t within the range of int is not turned down: it is
    converted to uint, so StopWithTimeout and RestartWithTimeout receive
    n + 2^64. *)
Theorem X10_negative_timeout_wraps (r : Request) (wld wld1 wld2 wld3 : World)
    (con : Container) (state : ContainerStatus) (timeout n : Z) :
  rt_LookupContainer runtime (mux_Vars r "name") wld = (inl con, wld1) ->
  rt_State runtime con wld1 = (inl state, wld2) ->
  state <> ContainerStateStopped /\ state <> ContainerStateExited ->
  rt_StopTimeout runtime con wld2 = (timeout, wld3) ->
  Decimal.integer (Values_Get (Form r) "t") = Some n ->
  Decimal.minInt <= n < 0 ->
  calls (serve (stopContainer runtime Sprintf0) r wld)
  = [CLookupContainer (mux_Vars r "name"); CState con;
     CStopWithTimeout con (n + 2 ^ 64)]
  /\ calls (serve (restartContainer runtime) r wld)
     = [CLookupContainer (mux_Vars r "name"); CState con; CStopTimeout con;
        CRestartWithTimeout con (n + 2 ^ 64)].
Proof.
  intros Hlookup Hstate [Hs He] Htimeout Hn Hrange.
  assert (Hne : Values_Get (Form r) "t" <> "") by (intros E; rewrite E in Hn; discriminate).
  assert (Hin : Decimal.inRange n = true)
    by (apply inRange_spec; unfold Decimal.minInt in Hrange; lia).
  split; unfold_handler; answer Hlookup; answer Hstate;
    answer (stopped_false _ Hs He); [| answer Htimeout ];
    rewrite (len_nonempty _ Hne), (Atoi_accepts _ n Hn Hin), (uint_negative n Hrange);
    cbn [world calls w fst snd].
  - destruct (rt_StopWithTimeout runtime con (n + 2 ^ 64) wld2) as [[e|] wld'];
      reflexivity.
  - destruct (rt_RestartWithTimeout runtime con (n + 2 ^ 64) wld3) as [[e|] wld'];
      reflexivity.
Qed.

(** X11: for a container past the state gate, stop and restart answer 400
    exactly when t is non-empty and is not an integer literal within the
    range of int. *)
Theorem X11_bad_request_exactly (r : Request) (wld wld1 wld2 : World)
    (con : Container) (state : ContainerStatus) :
  rt_LookupContainer runtime (mux_Vars r "name") wld = (inl con, wld1) ->
  rt_State runtime con wld1 = (inl state, wld2) ->
  state <> ContainerStateStopped /\ state <> ContainerStateExited ->
  (status (w (serve (stopContainer runtime Sprintf0) r wld)) = Some http.StatusBadRequest
   <-> Values_Get (Form r) "t" <> ""
       /\ forall n, Decimal.integer (Values_Get (Form r) "t") = Some n ->
                    Decimal.inRange n = false)
  /\ (status (w (serve (restartContainer runtime) r wld)) = Some http.StatusBadRequest
      <-> Values_Get (Form r) "t" <> ""
          /\ forall n, Decimal.integer (Values_Get (Form r) "t") = Some n ->
                       Decimal.inRange n = false).
Proof.
  intros Hlookup Hstate [Hs He].
  pose proof (Atoi_spec (Values_Get (Form r) "t")) as Hspec.
  split; unfold_handler; answer Hlookup; answer Hstate;
    answer (stopped_false _ Hs He); try split_call.
  all: destruct (Values_Get (Form r) "t") as [|c t] eqn:Ht.
  1, 3: rewrite len_empty; cbn [world calls w fst snd]; repeat split_call;
    (split; [intros H; vm_compute in H; discriminate H | intros [Hne _]; congruence]).
  all: rewrite (len_nonempty (String c t)) by discriminate.
  all: destruct (Decimal.integer (String c t)) as [n|];
    [ destruct (Decimal.inRange n) eqn:Hr | ].
  1, 4: rewrite Hspec; cbn [world calls w fst snd]; repeat split_call;
    (split; [ intros H; vm_compute in H; discriminate H
            | intros [_ Hbad]; specialize (Hbad n eq_refl); congruence ]).
  1, 3: destruct Hspec as [v ->];
    (split; [intros _; split; [discriminate | intros m [= <-]; exact Hr] | reflexivity]).
  all: destruct Hspec as (v & k & ->);
    (split; [intros _; split; discriminate | reflexivity]).
Qed.

(** X12: the handlers behind the POST routes read the name of the route and
    the first value of their own parameter, nothing else of the request:
    not the method, not other parameters, not further values. *)
Theorem X12_only_the_first_value_counts (r r' : Request) (wld : World) :
  mux_Vars r "name" = mux_Vars r' "name" ->
  (Values_Get (Form r) "signal" = Values_Get (Form r') "signal" ->
   serve (killContainer runtime ParseSignal) r wld
   = serve (killContainer runtime ParseSignal) r' wld)
  /\ (Values_Get (Form r) "t" = Values_Get (Form r') "t" ->
      serve (stopContainer runtime Sprintf0) r wld
      = serve (stopContainer runtime Sprintf0) r' wld
      /\ serve (restartContainer runtime) r wld = serve (restartContainer runtime) r' wld)
  /\ serve (pauseContainer runtime) r wld = serve (pauseContainer runtime) r' wld
  /\ serve (unpauseContainer runtime) r wld = serve (unpauseContainer runtime) r' wld
  /\ serve (waitContainer runtime Quote) r wld = serve (waitContainer runtime Quote) r' wld.
Proof.
  intros Hname. split; [| split; [| repeat split]].
  - intros Hparam. unfold_handler. rewrite Hname, Hparam. reflexivity.
  - intros Hparam. split; unfold_handler; rewrite Hname, Hparam; reflexivity.
  - unfold_handler. rewrite Hname. reflexivity.
  - unfold_handler. rewrite Hname. reflexivity.
  - unfold_handler. rewrite Hname. reflexivity.
Qed.
(** X13: whatever the request and the runtime, a handler writes exactly
    one chunk to the body of its response. *)
Theorem X13_one_response (r : Request) (wld : World) :
  Forall (fun handler => length (body (w (serve handler r wld))) = 1%nat)
         (operations runtime ParseSignal Sprintf0 Quote
          ++ [container runtime; containers]).
Proof.
  unfold operations. cbn [app].
  repeat first [apply List.Forall_nil | apply List.Forall_cons].
  all: all_paths ParseSignal; reflexivity.
Qed.

(** X14: link is looked at after force and v: with both flags fine, a
    non-empty link is answered with 400 and the cause
    "DELETE /containers/{id}?link parameter is not supported.", before any
    removal. *)
Theorem X14_link_checked_last (r : Request) (wld wld1 : World) (con : Container)
    (force vols : bool) :
  rt_LookupContainer runtime (mux_Vars r "name") wld = (inl con, wld1) ->
  Method r = "DELETE" ->
  flag (Values_Get (Form r) "force") force ->
  flag (Values_Get (Form r) "v") vols ->
  Values_Get (Form r) "link" <> "" ->
  serve (container runtime) r wld
  = {| world := wld1;
       calls := [CLookupContainer (mux_Vars r "name")];
       w := errorResponse "Something went wrong." http.StatusBadRequest
              (Some (errors.New
                       "DELETE /containers/{id}?link parameter is not supported.")) |}.
Proof.
  intros Hlookup Hmethod Hforce Hvols Hlink.
  unfold_handler; answer Hlookup.
  rewrite (bool_decide_eq_true_2 _ Hmethod), (len_nonempty _ Hlink).
  destruct Hforce as [[-> ->] | [Hne ->]];
    rewrite ?(len_nonempty _ Hne);
    (destruct Hvols as [[-> ->] | [Hne' ->]];
     rewrite ?(len_nonempty _ Hne'));
    rewrite ?len_empty; reflexivity.
Qed.
End Coverage.

(** ** The properties above on the small engines *)

Lemma X4_pause_unpause_pass_through_witness :
  serve (pauseContainer Fake.rt0) (Fake.request "POST" "c2" []) Fake.world0
  = {| world := <["c2" := ContainerStatePaused]> Fake.world0;
       calls := [CLookupContainer "c2"; CPause "c2"];
       w := noContent |}
  /\ serve (unpauseContainer Fake.rt0) (Fake.request "POST" "c2" []) Fake.world0
     = {| world := <["c2" := ContainerStateRunning]> Fake.world0;
          calls := [CLookupContainer "c2"; CUnpause "c2"];
          w := noContent |}.
Proof.
  apply (X4_pause_unpause_pass_through Fake.rt0 (Fake.request "POST" "c2" [])
           Fake.world0 Fake.world0
           (<["c2" := ContainerStatePaused]> Fake.world0)
           (<["c2" := ContainerStateRunning]> Fake.world0)
           "c2" None None).
  - vm_compute. reflexivity.
  - vm_compute. reflexivity.
  - vm_compute. reflexivity.
Defined.

Lemma X5_state_query_failure_500_witness :
  serve (killContainer (Fake.flaky false) Fake.ParseSignal)
        (Fake.request "POST" "c1" []) tt
  = {| world := tt;
       calls := [CLookupContainer "c1"; CState "c1"];
       w := errorResponse "Something went wrong." http.StatusInternalServerError
              (Some Fake.engineDown) |}
  /\ serve (restartContainer (Fake.flaky false)) (Fake.request "POST" "c1" []) tt
     = {| world := tt;
          calls := [CLookupContainer "c1"; CState "c1"];
          w := errorResponse "Something went wrong." http.StatusInternalServerError
                 (Some Fake.engineDown) |}
  /\ serve (stopContainer (Fake.flaky false) Fake.Sprintf0)
           (Fake.request "POST" "c1" []) tt
     = {| world := tt;
          calls := [CLookupContainer "c1"; CState "c1"];
          w := errorResponse "Something went wrong." http.StatusInternalServerError
                 (Some (withMessage Fake.engineDown
                          "unable to get state for c1 : %!s(MISSING)")) |}.
Proof.
  apply (X5_state_query_failure_500 (Fake.flaky false) Fake.ParseSignal Fake.Sprintf0
           (Fake.request "POST" "c1" []) tt tt tt "c1" Fake.engineDown).
  - vm_compute. reflexivity.
  - vm_compute. reflexivity.
Defined.

Lemma X6_remove_carries_flags_witness :
  serve (container Fake.rt0) (Fake.request "DELETE" "c1" [("force", ["1"])]) Fake.world0
  = {| world := delete "c1" Fake.world0;
       calls := [CLookupContainer "c1"; CRemoveContainer "c1" true false];
       w := noContent |}.
Proof.
  apply (X6_remove_carries_flags Fake.rt0 (Fake.request "DELETE" "c1" [("force", ["1"])])
           Fake.world0 Fake.world0 (delete "c1" Fake.world0) "c1" true false None).
  - vm_compute. reflexivity.
  - reflexivity.
  - right. split; [vm_compute; discriminate | vm_compute; reflexivity].
  - left. split; vm_compute; reflexivity.
  - vm_compute. reflexivity.
  - vm_compute. reflexivity.
Defined.

Lemma X7_bad_flag_400_witness :
  serve (container Fake.rt0) (Fake.request "DELETE" "c1" [("force", ["yes"])]) Fake.world0
  = {| world := Fake.world0;
       calls := [CLookupContainer "c1"];
       w := errorResponse "Something went wrong." http.StatusBadRequest
              (Some (withMessage (NumError "ParseBool" "yes" ErrSyntax)
                       "Unable to parse parameter 'force': yes")) |}
  /\ serve (container Fake.rt0)
           (Fake.request "DELETE" "c1" [("force", ["0"]); ("v", ["maybe"])]) Fake.world0
     = {| world := Fake.world0;
          calls := [CLookupContainer "c1"];
          w := errorResponse "Something went wrong." http.StatusBadRequest
                 (Some (withMessage (NumError "ParseBool" "maybe" ErrSyntax)
                          "Unable to parse parameter 'v': maybe")) |}.
Proof.
  split.
  - apply (X7_bad_flag_400 Fake.rt0 (Fake.request "DELETE" "c1" [("force", ["yes"])])
             Fake.world0 Fake.world0 "c1").
    + vm_compute. reflexivity.
    + reflexivity.
    + vm_compute. discriminate.
    + change (Values_Get (Form (Fake.request "DELETE" "c1" [("force", ["yes"])])) "force")
        with "yes".
      unfold boolLiterals. rewrite !elem_of_cons, elem_of_nil.
      intros H. repeat (destruct H as [H|H]; [discriminate H|]). exact H.
  - apply (X7_bad_flag_400 Fake.rt0
             (Fake.request "DELETE" "c1" [("force", ["0"]); ("v", ["maybe"])])
             Fake.world0 Fake.world0 "c1") with (force := false).
    + vm_compute. reflexivity.
    + reflexivity.
    + right. split; [vm_compute; discriminate | vm_compute; reflexivity].
    + vm_compute. discriminate.
    + change (Values_Get
                (Form (Fake.request "DELETE" "c1" [("force", ["0"]); ("v", ["maybe"])])) "v")
        with "maybe".
      unfold boolLiterals. rewrite !elem_of_cons, elem_of_nil.
      intros H. repeat (destruct H as [H|H]; [discriminate H|]). exact H.
Defined.

Lemma X8_kill_with_signal_witness :
  serve (killContainer Fake.rt0 Fake.ParseSignal)
        (Fake.request "POST" "c1" [("signal", ["BOGUS"])]) Fake.world0
  = {| world := Fake.world0;
       calls := [CLookupContainer "c1"; CState "c1"];
       w := errorResponse "Something went wrong." http.StatusBadRequest
              (Some (withMessage (errorString "Invalid signal: BOGUS")
                       "unable to parse signal BOGUS")) |}
  /\ serve (killContainer Fake.rt0 Fake.ParseSignal)
           (Fake.request "POST" "c1" [("signal", ["SIGTERM"])]) Fake.world0
     = {| world := <["c1" := ContainerStateExited]> Fake.world0;
          calls := [CLookupContainer "c1"; CState "c1"; CKill "c1" 15];
          w := noContent |}.
Proof.
  split.
  - apply (X8_kill_with_signal Fake.rt0 Fake.ParseSignal
             (Fake.request "POST" "c1" [("signal", ["BOGUS"])])
             Fake.world0 Fake.world0 Fake.world0
             (<["c1" := ContainerStateExited]> Fake.world0)
             "c1" ContainerStateRunning (-1) None).
    + vm_compute. reflexivity.
    + vm_compute. reflexivity.
    + split; discriminate.
    + vm_compute. discriminate.
    + vm_compute. reflexivity.
    + vm_compute. reflexivity.
  - apply (X8_kill_with_signal Fake.rt0 Fake.ParseSignal
             (Fake.request "POST" "c1" [("signal", ["SIGTERM"])])
             Fake.world0 Fake.world0 Fake.world0
             (<["c1" := ContainerStateExited]> Fake.world0)
             "c1" ContainerStateRunning 15 None).
    + vm_compute. reflexivity.
    + vm_compute. reflexivity.
    + split; discriminate.
    + vm_compute. discriminate.
    + vm_compute. reflexivity.
    + vm_compute. reflexivity.
Defined.


Lemma X10_negative_timeout_wraps_witness :
  calls (serve (stopContainer Fake.rt0 Fake.Sprintf0)
               (Fake.request "POST" "c1" [("t", ["-5"])]) Fake.world0)
  = [CLookupContainer "c1"; CState "c1"; CStopWithTimeout "c1" 18446744073709551611]
  /\ calls (serve (restartContainer Fake.rt0)
                  (Fake.request "POST" "c1" [("t", ["-5"])]) Fake.world0)
     = [CLookupContainer "c1"; CState "c1"; CStopTimeout "c1";
        CRestartWithTimeout "c1" 18446744073709551611].
Proof.
  apply (X10_negative_timeout_wraps Fake.rt0 Fake.Sprintf0
           (Fake.request "POST" "c1" [("t", ["-5"])])
           Fake.world0 Fake.world0 Fake.world0 Fake.world0
           "c1" ContainerStateRunning 10 (-5)).
  - vm_compute. reflexivity.
  - vm_compute. reflexivity.
  - split; discriminate.
  - vm_compute. reflexivity.
  - vm_compute. reflexivity.
  - vm_compute. split; [discriminate | reflexivity].
Defined.

Lemma X11_bad_request_exactly_witness :
  status (w (serve (stopContainer Fake.rt0 Fake.Sprintf0)
                   (Fake.request "POST" "c1" [("t", ["ten"])]) Fake.world0))
  = Some http.StatusBadRequest
  /\ status (w (serve (restartContainer Fake.rt0)
                      (Fake.request "POST" "c1" [("t", ["ten"])]) Fake.world0))
     = Some http.StatusBadRequest.
Proof.
  destruct (X11_bad_request_exactly Fake.rt0 Fake.Sprintf0
              (Fake.request "POST" "c1" [("t", ["ten"])])
              Fake.world0 Fake.world0 Fake.world0 "c1" ContainerStateRunning)
    as [Hstop Hrestart].
  - vm_compute. reflexivity.
  - vm_compute. reflexivity.
  - split; discriminate.
  - split; [apply Hstop | apply Hrestart];
      (split; [vm_compute; discriminate | intros n Hn; vm_compute in Hn; discriminate Hn]).
Defined.

Lemma X12_only_the_first_value_counts_witness :
  serve (stopContainer Fake.rt0 Fake.Sprintf0)
        (Fake.request "POST" "c1" [("t", ["5"; "7"]); ("force", ["1"])]) Fake.world0
  = serve (stopContainer Fake.rt0 Fake.Sprintf0)
          (Fake.request "GET" "c1" [("t", ["5"])]) Fake.world0.
Proof.
  apply (X12_only_the_first_value_counts Fake.rt0 Fake.ParseSignal Fake.Sprintf0 Fake.Quote
           (Fake.request "POST" "c1" [("t", ["5"; "7"]); ("force", ["1"])])
           (Fake.request "GET" "c1" [("t", ["5"])]) Fake.world0).
  - vm_compute. reflexivity.
  - vm_compute. reflexivity.
Defined.

Lemma X14_link_checked_last_witness :
  serve (container Fake.rt0)
        (Fake.request "DELETE" "c1" [("force", ["true"]); ("link", ["db"])]) Fake.world0
  = {| world := Fake.world0;
       calls := [CLookupContainer "c1"];
       w := errorResponse "Something went wrong." http.StatusBadRequest
              (Some (errors.New
                       "DELETE /containers/{id}?link parameter is not supported.")) |}.
Proof.
  apply (X14_link_checked_last Fake.rt0
           (Fake.request "DELETE" "c1" [("force", ["true"]); ("link", ["db"])])
           Fake.world0 Fake.world0 "c1" true false).
  - vm_compute. reflexivity.
  - reflexivity.
  - right. split; [vm_compute; discriminate | vm_compute; reflexivity].
  - left. split; vm_compute; reflexivity.
  - vm_compute. discriminate.
Defined.
